(** * Financial dashboard front end: model and verified properties

    A shallow embedding of the React front end under
    [FinancialIntelSuite/frontend/src]: the tooltip callbacks of the chart
    components, the shareholder ranking of [TopShareholders.js], the file
    gate of [UploadForm.js], the year selector of [Filters.js] and the
    request handling of [App.js].

    Numbers.  The payload is JSON, so every number it carries is finite;
    finite numbers are idealised as rationals ([Q]) and the rounding of
    IEEE doubles is not modelled.  The non-finite results that JavaScript
    arithmetic can still produce (a division by zero, an operand that is
    [undefined]) are kept as explicit values of [JS.num]. *)

From Stdlib Require Import List ZArith QArith Qround String Ascii Bool Lia.
From Stdlib Require Import Permutation Sorted DecimalString DecimalPos Lqa.
Import ListNotations.

Open Scope string_scope.
Open Scope Q_scope.

(* ================================================================== *)
(** ** JavaScript primitives used by the components *)
(* ================================================================== *)

Module JS.

(** A JavaScript number: a finite value, an infinity with its sign, or NaN. *)
Inductive num : Type :=
| Fin (q : Q)
| Inf (negative : bool)
| NaN.

Definition Qis_zero (q : Q) : bool := Qeq_bool q 0.
Definition Qis_neg (q : Q) : bool := negb (Qle_bool 0 q).
Definition Qis_pos (q : Q) : bool := negb (Qle_bool q 0).

(** Reading an array slot in an arithmetic expression: a missing slot is
    [undefined], which coerces to NaN. *)
Definition of_slot (o : option Q) : num :=
  match o with
  | Some q => Fin q
  | None => NaN
  end.

(** [a - b] *)
Definition sub (a b : num) : num :=
  match a, b with
  | Fin x, Fin y => Fin (x - y)
  | Fin _, Inf s => Inf (negb s)
  | Inf s, Fin _ => Inf s
  | Inf s, Inf t => if Bool.eqb s t then NaN else Inf s
  | _, _ => NaN
  end.

(** [a / b].  Finite numbers carry no signed zero, so for a divisor that
    is zero the sign of the infinity is taken from the dividend alone;
    JavaScript also looks at the sign of the zero.  No statement below
    depends on that sign. *)
Definition div (a b : num) : num :=
  match a, b with
  | Fin x, Fin y =>
      if Qis_zero y
      then (if Qis_zero x then NaN else Inf (Qis_neg x))
      else Fin (x / y)
  | Fin _, Inf _ => Fin 0
  | Inf s, Fin y => Inf (xorb s (Qis_neg y))
  | _, _ => NaN
  end.

(** [a * b] *)
Definition mul (a b : num) : num :=
  match a, b with
  | Fin x, Fin y => Fin (x * y)
  | Fin x, Inf s => if Qis_zero x then NaN else Inf (xorb s (Qis_neg x))
  | Inf s, Fin x => if Qis_zero x then NaN else Inf (xorb s (Qis_neg x))
  | Inf s, Inf t => Inf (xorb s t)
  | _, _ => NaN
  end.

(** [a > 0] *)
Definition gt0 (a : num) : bool :=
  match a with
  | Fin x => Qis_pos x
  | Inf s => negb s
  | NaN => false
  end.

(** Truthiness of an array slot holding a number, [null] or nothing:
    [undefined], [null] and [0] are falsy. *)
Definition truthy (o : option Q) : bool :=
  match o with
  | Some q => negb (Qis_zero q)
  | None => false
  end.

(** [arr[i]] for a non-negative index; past the end the result is
    [undefined], and a [null] element is read as absent as well. *)
Definition get {A : Type} (arr : list (option A)) (i : nat) : option A :=
  match nth_error arr i with
  | Some o => o
  | None => None
  end.

(** [arr[i]] for an index that may be negative ([indexOf] returns -1):
    a negative index names no element. *)
Definition getZ {A : Type} (arr : list (option A)) (i : Z) : option A :=
  if (i <? 0)%Z then None else get arr (Z.to_nat i).

(** [arr.indexOf(x)]: position of the first element equal to [x], or -1. *)
Fixpoint indexOf_from (arr : list Z) (x : Z) (k : Z) : Z :=
  match arr with
  | [] => (-1)%Z
  | y :: rest => if (y =? x)%Z then k else indexOf_from rest x (k + 1)%Z
  end.

Definition indexOf (arr : list Z) (x : Z) : Z := indexOf_from arr x 0%Z.

(** [arr.slice(0, n)] *)
Definition slice0 {A : Type} (n : nat) (arr : list A) : list A := firstn n arr.

(** [arr.sort(compareFn)].  ECMAScript requires the sort to be stable and,
    for a consistent comparator, fixes its result: [a] is placed before
    [b] when [compareFn a b < 0], elements that compare equal keep their
    order.  Insertion from the right computes that result; an element is
    inserted in front of the first element it does not have to follow. *)
Fixpoint insert {A : Type} (compareFn : A -> A -> Q) (x : A) (arr : list A)
  : list A :=
  match arr with
  | [] => [x]
  | y :: rest =>
      if Qle_bool (compareFn x y) 0 then x :: y :: rest
      else y :: insert compareFn x rest
  end.

Fixpoint sort {A : Type} (compareFn : A -> A -> Q) (arr : list A) : list A :=
  match arr with
  | [] => []
  | x :: rest => insert compareFn x (sort compareFn rest)
  end.

(** Decimal digits of a natural number, as in a template literal. *)
Definition nat_to_string (n : nat) : string :=
  NilZero.string_of_uint (Nat.to_uint n).

Fixpoint zeros (n : nat) : string :=
  match n with
  | O => EmptyString
  | S k => String "0" (zeros k)
  end.

(** Digits of [x.toFixed(k)] for [x >= 0]: the integer nearest to
    [x * 10^k] (the larger one on a tie), written with at least [k + 1]
    digits and a point before the last [k]. *)
Definition fixed_digits (k : nat) (x : Q) : string :=
  let n := Qfloor (x * inject_Z (10 ^ Z.of_nat k) + (1 # 2)) in
  let m := NilZero.string_of_uint (N.to_uint (Z.to_N n)) in
  match k with
  | O => m
  | _ =>
      let m' := zeros (S k - String.length m) ++ m in
      let a := String.length m' - k in
      substring 0 a m' ++ "." ++ substring a k m'
  end%nat.

(** [x.toFixed(k)], for magnitudes below 10^21 (above that JavaScript
    switches to exponent notation). *)
Definition toFixed (k : nat) (x : num) : string :=
  match x with
  | Fin q => if Qis_neg q then "-" ++ fixed_digits k (- q) else fixed_digits k q
  | Inf false => "Infinity"
  | Inf true => "-Infinity"
  | NaN => "NaN"
  end.

(** [String(n)] of an integer, as in [value={year}]: its decimal digits
    when the magnitude is below 2^53, where every integer is a double and
    is written with all its digits.  Above, doubles skip integers and
    JavaScript writes the shortest digits that name the double, or an
    exponent from 10^21 on; that is not modelled and the result is
    [None]. *)
Definition int_to_string (z : Z) : option string :=
  if (Z.abs z <? 2 ^ 53)%Z
  then Some (NilZero.string_of_int (Z.to_int z))
  else None.

(** The white space skipped by [parseInt], within ASCII. *)
Definition is_space (c : ascii) : bool :=
  match nat_of_ascii c with
  | 9 | 10 | 11 | 12 | 13 | 32 => true
  | _ => false
  end%nat.

Fixpoint trim_start (s : string) : string :=
  match s with
  | EmptyString => EmptyString
  | String c rest => if is_space c then trim_start rest else s
  end.

(** The value of a character as a digit of the radix, if it is one. *)
Definition digit_value (radix : Z) (c : ascii) : option Z :=
  let n := Z.of_nat (nat_of_ascii c) in
  let v :=
    if (48 <=? n)%Z && (n <=? 57)%Z then (n - 48)%Z
    else if (97 <=? n)%Z && (n <=? 122)%Z then (n - 87)%Z
    else if (65 <=? n)%Z && (n <=? 90)%Z then (n - 55)%Z
    else radix in
  if (v <? radix)%Z then Some v else None.

(** The number written by the longest prefix of digits; [acc] is the
    number read so far, [None] before the first digit. *)
Fixpoint digits (radix : Z) (s : string) (acc : option Z) : option Z :=
  match s with
  | EmptyString => acc
  | String c rest =>
      match digit_value radix c with
      | Some v =>
          digits radix rest
                 (Some (radix * match acc with Some a => a | None => 0 end + v)%Z)
      | None => acc
      end
  end.

(** [parseInt(s)] without a radix argument: leading white space, a sign,
    a [0x] prefix for hexadecimal, then digits up to the first character
    that is none; [None] stands for NaN.  The number read is exact;
    JavaScript rounds it to a double, which changes nothing below 2^53. *)
Definition parseInt (s : string) : option Z :=
  let s := trim_start s in
  let '(negative, s) :=
    match s with
    | String "-" rest => (true, rest)
    | String "+" rest => (false, rest)
    | _ => (false, s)
    end in
  let magnitude :=
    match s with
    | String "0" (String "x" rest) => digits 16 rest None
    | String "0" (String "X" rest) => digits 16 rest None
    | _ => digits 10 s None
    end in
  option_map (fun m => if negative then (- m)%Z else m) magnitude.

End JS.

(* ================================================================== *)
(** ** The payload rendered by the dashboard *)
(* ================================================================== *)

(** One row of a year's shareholder table. *)
Record Shareholder : Type := mkShareholder {
  name : string;
  ownership_percentage : Q
}.

(** The object held in [data] by [App]: parallel arrays indexed by year.
    A field is optional when the components test it before use
    ([data.cost_ratio && ...]); a series whose slots are tested one by
    one has optional slots. *)
Record Data : Type := mkData {
  years : option (list Z);
  revenue : list Q;
  revenue_growth : option (list (option Q));
  cost_of_sales : list Q;
  operating_expenses : list Q;
  cost_ratio : option (list (option Q));
  gross_profit_margin : option (list Q);
  eps : list Q;
  eps_growth : option (list (option Q));
  net_profit : option (list (option Q));
  net_asset_per_share : option (list Q);
  shareholders : option (list (option (list Shareholder)))
}.

(** The tooltip context handed to a callback by the charting library. *)
Record Context : Type := mkContext {
  dataset_label : string;
  datasetIndex : nat;
  dataIndex : nat;
  parsed_y : option Q
}.

(** [let label = context.dataset.label || ''; if (label) label += ': '] *)
Definition label_prefix (ctx : Context) : string :=
  match dataset_label ctx with
  | EmptyString => EmptyString
  | l => l ++ ": "
  end.

(** [`YoY Growth: ${growth > 0 ? '+' : ''}${growth.toFixed(1)}%`] *)
Definition growth_line (growth : Q) : string :=
  "YoY Growth: " ++ (if JS.gt0 (JS.Fin growth) then "+" else EmptyString)
                 ++ JS.toFixed 1 (JS.Fin growth) ++ "%".

(** The slot [series[index - 1]] read by the growth tooltips, guarded as
    in the source: [index > 0 && series && series[index - 1]]. *)
Definition growth_slot (series : option (list (option Q))) (index : nat)
  : option Q :=
  match index, series with
  | S i, Some gs => if JS.truthy (JS.get gs i) then JS.get gs i else None
  | _, _ => None
  end.

(** *** RevenueTrend *)
Module RevenueTrend.

Definition label (ctx : Context) : string :=
  label_prefix ctx ++
  match parsed_y ctx with
  | Some y => JS.toFixed 2 (JS.Fin y) ++ " Billion"
  | None => EmptyString
  end.

Definition afterLabel (data : Data) (ctx : Context) : option string :=
  match growth_slot (revenue_growth data) (dataIndex ctx) with
  | Some growth => Some (growth_line growth)
  | None => None
  end.

End RevenueTrend.

(** *** EPSTrend *)
Module EPSTrend.

Definition label (ctx : Context) : string :=
  label_prefix ctx ++
  match parsed_y ctx with
  | Some y => "LKR " ++ JS.toFixed 2 (JS.Fin y)
  | None => EmptyString
  end.

Definition net_profit_lines (data : Data) (index : nat) : list string :=
  match net_profit data with
  | Some np =>
      if JS.truthy (JS.get np index)
      then ["Net Profit: " ++ JS.toFixed 2 (JS.of_slot (JS.get np index))
                           ++ " Billion"]
      else []
  | None => []
  end.

Definition growth_lines (data : Data) (index : nat) : list string :=
  match growth_slot (eps_growth data) index with
  | Some growth => [growth_line growth]
  | None => []
  end.

Definition afterLabel (data : Data) (ctx : Context) : list string :=
  net_profit_lines data (dataIndex ctx) ++ growth_lines data (dataIndex ctx).

End EPSTrend.

(** *** CostExpenses *)
Module CostExpenses.

Definition label (ctx : Context) : string :=
  label_prefix ctx ++
  match parsed_y ctx with
  | Some y => JS.toFixed 2 (JS.Fin y) ++ " Billion"
  | None => EmptyString
  end.

(** [index] is [tooltipItems[0].dataIndex]. *)
Definition afterBody (data : Data) (index : nat) : option (list string) :=
  match cost_ratio data with
  | Some cr =>
      if JS.truthy (JS.get cr index)
      then Some ["Cost-to-Revenue Ratio: "
                   ++ JS.toFixed 1 (JS.of_slot (JS.get cr index)) ++ "%"]
      else None
  | None => None
  end.

End CostExpenses.

(** *** NetAssetShare *)
Module NetAssetShare.

Definition label (ctx : Context) : string :=
  label_prefix ctx ++
  match parsed_y ctx with
  | Some y => "LKR " ++ JS.toFixed 2 (JS.Fin y)
  | None => EmptyString
  end.

(** [currentValue - previousValue] *)
Definition change (series : list Q) (index : nat) : JS.num :=
  JS.sub (JS.of_slot (nth_error series index))
         (JS.of_slot (nth_error series (index - 1))).

(** [(change / previousValue) * 100] *)
Definition percentChange (series : list Q) (index : nat) : JS.num :=
  JS.mul (JS.div (change series index)
                 (JS.of_slot (nth_error series (index - 1))))
         (JS.Fin 100).

Definition afterLabel (data : Data) (ctx : Context) : option (list string) :=
  match datasetIndex ctx, dataIndex ctx, net_asset_per_share data with
  | O, S _, Some series =>
      let index := dataIndex ctx in
      Some [ "YoY Change: "
               ++ (if JS.gt0 (change series index) then "+" else EmptyString)
               ++ JS.toFixed 2 (change series index) ++ " LKR";
             "YoY Growth: " ++ JS.toFixed 1 (percentChange series index) ++ "%" ]
  | _, _, _ => None
  end.

End NetAssetShare.

(** *** GPMargin *)
Module GPMargin.

Definition label (ctx : Context) : string :=
  label_prefix ctx ++
  match parsed_y ctx with
  | Some y => JS.toFixed 2 (JS.Fin y) ++ "%"
  | None => EmptyString
  end.

(** [currentValue - previousValue] *)
Definition change (series : list Q) (index : nat) : JS.num :=
  JS.sub (JS.of_slot (nth_error series index))
         (JS.of_slot (nth_error series (index - 1))).

Definition afterLabel (data : Data) (ctx : Context) : option string :=
  match datasetIndex ctx, dataIndex ctx, gross_profit_margin data with
  | O, S _, Some series =>
      let index := dataIndex ctx in
      Some ("YoY Change: "
              ++ (if JS.gt0 (change series index) then "+" else EmptyString)
              ++ JS.toFixed 2 (change series index)
              ++ " percentage points")
  | _, _, _ => None
  end.

End GPMargin.

(** *** The arithmetic of the two charts in double precision *)

(** [NetAssetShare] and [GPMargin] compute on doubles: the result of each
    operation is rounded, and may overflow to an infinity.  [fl] stands
    for that rounding of an exact result and is left unspecified; the
    definitions of the two modules above are the case where it changes
    nothing. *)
Module Doubles.

Section Rounding.

Variable fl : Q -> JS.num.

Definition round (x : JS.num) : JS.num :=
  match x with
  | JS.Fin q => fl q
  | _ => x
  end.

Definition sub (a b : JS.num) : JS.num := round (JS.sub a b).
Definition div (a b : JS.num) : JS.num := round (JS.div a b).
Definition mul (a b : JS.num) : JS.num := round (JS.mul a b).

(** [currentValue - previousValue] *)
Definition change (series : list Q) (index : nat) : JS.num :=
  sub (JS.of_slot (nth_error series index))
      (JS.of_slot (nth_error series (index - 1))).

(** [(change / previousValue) * 100] *)
Definition percentChange (series : list Q) (index : nat) : JS.num :=
  mul (div (change series index)
           (JS.of_slot (nth_error series (index - 1))))
      (JS.Fin 100).

End Rounding.

End Doubles.

(** *** TopShareholders *)
Module TopShareholders.

(** What the component returns, or the exception that escapes it. *)
Inductive outcome (A : Type) : Type :=
| Ok (a : A)
| TypeError.
Arguments Ok {A} a.
Arguments TypeError {A}.

Inductive View : Type :=
| BarChart (labels : list string) (values : list Q)
| NoDataMessage (selectedYear : option Z).

(** [data.years[data.years.length - 1]]: the initial selected year;
    [undefined] on an empty array. *)
Definition initialYear (ys : list Z) : option Z :=
  match ys with
  | [] => None
  | _ => nth_error ys (List.length ys - 1)
  end.

(** [data.years.indexOf(selectedYear)] *)
Definition yearIndex (ys : list Z) (selectedYear : option Z) : Z :=
  match selectedYear with
  | Some y => JS.indexOf ys y
  | None => (-1)%Z
  end.

(** [data.shareholders && data.shareholders[yearIndex]
      ? data.shareholders[yearIndex] : []] *)
Definition yearData (data : Data) (yearIndex : Z) : list Shareholder :=
  match shareholders data with
  | Some table =>
      match JS.getZ table yearIndex with
      | Some row => row
      | None => []
      end
  | None => []
  end.

(** [(a, b) => b.ownership_percentage - a.ownership_percentage] *)
Definition compareFn (a b : Shareholder) : Q :=
  ownership_percentage b - ownership_percentage a.

Definition sortedShareholders (yearData : list Shareholder)
  : list Shareholder :=
  JS.sort compareFn yearData.

Definition top10Shareholders (yearData : list Shareholder)
  : list Shareholder :=
  JS.slice0 10 (sortedShareholders yearData).

(** The ranking with the cut-off as a parameter; the component fixes it
    to 10. *)
Definition topN (n : nat) (yearData : list Shareholder) : list Shareholder :=
  JS.slice0 n (sortedShareholders yearData).

(** One render of the component with the given selected year. *)
Definition render (data : Data) (selectedYear : option Z) : outcome View :=
  match years data with
  | None => TypeError
  | Some ys =>
      let yd := yearData data (yearIndex ys selectedYear) in
      let top := top10Shareholders yd in
      if (0 <? List.length yd)%nat
      then Ok (BarChart (map name top) (map ownership_percentage top))
      else Ok (NoDataMessage selectedYear)
  end.

(** First render: the selected year is the last year of the payload. *)
Definition mount (data : Data) : outcome View :=
  match years data with
  | None => TypeError
  | Some ys => render data (initialYear ys)
  end.

(** The [value] of the option rendered for a year: [<option value={year}>]
    ([None] outside the range that [JS.int_to_string] models). *)
Definition option_value (year : Z) : option string := JS.int_to_string year.

(** The year selector handler: [setSelectedYear(parseInt(e.target.value))];
    the result is the new selected year, NaN being no year at all. *)
Definition handleYearChange (value : string) : option Z := JS.parseInt value.

End TopShareholders.

(* ================================================================== *)
(** ** UploadForm *)
(* ================================================================== *)

Module UploadForm.

Record File : Type := mkFile {
  file_name : string;
  type : string
}.

Record State : Type := mkState {
  files : list File;
  message : string
}.

Definition initial : State := mkState [] EmptyString.

Definition is_pdf (file : File) : bool :=
  String.eqb (type file) "application/pdf".

Definition handleFileChange (st : State) (selectedFiles : list File) : State :=
  let pdfFiles := filter is_pdf selectedFiles in
  if negb (List.length pdfFiles =? List.length selectedFiles)%nat
  then mkState (files st) "Please select only PDF files."
  else mkState pdfFiles
         (JS.nat_to_string (List.length pdfFiles) ++ " file(s) selected.").

(** The new state and the argument of [onUpload], when it is called. *)
Definition handleSubmit (st : State) : State * option (list File) :=
  match files st with
  | [] => (mkState (files st) "Please select at least one PDF file.", None)
  | _ => (st, Some (files st))
  end.

Inductive event : Type :=
| FileChange (selectedFiles : list File)
| Submit.

(** The form after a sequence of events, with the [onUpload] calls made
    so far, oldest first. *)
Fixpoint run (st : State) (calls : list (list File)) (evs : list event)
  : State * list (list File) :=
  match evs with
  | [] => (st, calls)
  | FileChange selected :: rest => run (handleFileChange st selected) calls rest
  | Submit :: rest =>
      match handleSubmit st with
      | (st', Some fs) => run st' (calls ++ [fs]) rest
      | (st', None) => run st' calls rest
      end
  end.

End UploadForm.

(* ================================================================== *)
(** ** Filters *)
(* ================================================================== *)

Module Filters.

(** The object passed to [onChange] and kept in [filters] by [App]; the
    component keeps a local copy of the same three fields. *)
Record Selection : Type := mkSelection {
  years : list Z;
  industry : string;
  currency : string
}.

Definition availableYears : list Z := [2019; 2020; 2021; 2022; 2023; 2024]%Z.

(** [s || fallback] on strings: the empty string is falsy. *)
Definition or_default (s fallback : string) : string :=
  match s with
  | EmptyString => fallback
  | _ => s
  end.

(** The three [useState] initialisers. *)
Definition init (filters : Selection) : Selection :=
  mkSelection (years filters)
              (or_default (industry filters) "All")
              (or_default (currency filters) "LKR").

(** The mount effect: an empty local selection becomes all years. *)
Definition mountEffect (local : Selection) : Selection :=
  match years local with
  | [] => mkSelection availableYears (industry local) (currency local)
  | _ => local
  end.

(** Local state after the first render and its effect. *)
Definition mounted (filters : Selection) : Selection :=
  mountEffect (init filters).

(** Each handler returns the new local state and the argument it passes
    to [onChange]. *)
Definition handleYearChange (filters local : Selection)
  (selectedYears : list Z) : Selection * Selection :=
  (mkSelection selectedYears (industry local) (currency local),
   mkSelection selectedYears (industry filters) (currency filters)).

Definition handleIndustryChange (filters local : Selection)
  (value : string) : Selection * Selection :=
  (mkSelection (years local) value (currency local),
   mkSelection (years filters) value (currency filters)).

Definition handleCurrencyChange (filters local : Selection)
  (value : string) : Selection * Selection :=
  (mkSelection (years local) (industry local) value,
   mkSelection (years filters) (industry filters) value).

(** The "Apply Filters" button: [onChange({ years, industry, currency })]. *)
Definition applyClick (local : Selection) : Selection := local.

(** [Array.from(e.target.selectedOptions, option => parseInt(option.value))] *)
Definition selectedYears (values : list string) : list (option Z) :=
  map JS.parseInt values.

End Filters.

(* ================================================================== *)
(** ** Filter Engine and Derived-Metrics Calculator *)
(* ================================================================== *)

(** The front end receives filtered and derived series ready-made from
    [/api/filter] and [/api/upload]; the code computing them is not part
    of the front-end sources.  The definitions of this module follow the
    specification, on the payload shape the components consume. *)
Module Engine.

(** Modelled from the spec: the per-year cost-to-revenue ratio of the
    Derived-Metrics Calculator (its code is missing from the sources):
    "cost_of_sales / revenue * 100 per year, undefined (absent) when
    revenue is zero". *)
Definition cost_ratio_at (cost rev : Q) : option Q :=
  if JS.Qis_zero rev then None else Some (cost / rev * 100).

(** Modelled from the spec: the cost-to-revenue series of the
    Derived-Metrics Calculator (missing from the sources), one slot per
    year of the view. *)
Fixpoint cost_ratio_series (costs revs : list Q) : list (option Q) :=
  match costs, revs with
  | c :: costs', r :: revs' => cost_ratio_at c r :: cost_ratio_series costs' revs'
  | _, _ => []
  end.

(** Modelled from the spec: one year-over-year growth value of the
    Derived-Metrics Calculator (missing from the sources):
    "(value[i] - value[i-1]) / value[i-1] * 100"; a zero denominator
    degrades to an absent value. *)
Definition growth_at (previous current : Q) : option Q :=
  if JS.Qis_zero previous then None
  else Some ((current - previous) / previous * 100).

(** Modelled from the spec: the growth series of the Derived-Metrics
    Calculator (missing from the sources): defined for i >= 1, so its
    slot [i - 1] compares year [i] with year [i - 1] and the first year
    has no slot. *)
Fixpoint growth_series (values : list Q) : list (option Q) :=
  match values with
  | previous :: ((current :: _) as rest) =>
      growth_at previous current :: growth_series rest
  | _ => []
  end.

(** Modelled from the spec: [derive] of the Derived-Metrics Calculator
    (missing from the sources), filling the derived series of a view. *)
Definition derive (view : Data) : Data :=
  mkData (years view)
         (revenue view) (Some (growth_series (revenue view)))
         (cost_of_sales view) (operating_expenses view)
         (Some (cost_ratio_series (cost_of_sales view) (revenue view)))
         (gross_profit_margin view)
         (eps view) (Some (growth_series (eps view)))
         (net_profit view)
         (net_asset_per_share view)
         (shareholders view).

(** Keeps the slots of a per-year array whose year is kept. *)
Fixpoint select {A : Type} (keep : list bool) (arr : list A) : list A :=
  match keep, arr with
  | k :: keep', x :: arr' =>
      if k then x :: select keep' arr' else select keep' arr'
  | _, _ => []
  end.

Definition requested (wanted : list Z) (year : Z) : bool :=
  existsb (Z.eqb year) wanted.

(** Modelled from the spec: the year filter of the Filter Engine (its
    code is missing from the sources): "Filters Year Records to the
    requested years (preserving order); if the requested set is empty,
    defaults to the full dataset".  Growth compares neighbours of the
    view, so a narrowed view carries no growth series until [derive]
    computes it again. *)
Definition filter_years (dataset : Data) (wanted : list Z) : Data :=
  match wanted, years dataset with
  | [], _ => dataset
  | _, None => dataset
  | _, Some ys =>
      let keep := map (requested wanted) ys in
      mkData (Some (select keep ys))
             (select keep (revenue dataset))
             None
             (select keep (cost_of_sales dataset))
             (select keep (operating_expenses dataset))
             (option_map (select keep) (cost_ratio dataset))
             (option_map (select keep) (gross_profit_margin dataset))
             (select keep (eps dataset))
             None
             (option_map (select keep) (net_profit dataset))
             (option_map (select keep) (net_asset_per_share dataset))
             (option_map (select keep) (shareholders dataset))
  end.

(** Modelled from the spec: the currency conversion of the Filter Engine
    (missing from the sources): "if selection currency differs from
    dataset currency, multiply all monetary fields by a supplied
    exchange rate". *)
Definition convert (dataset_currency : string) (rate : Q)
  (selection_currency : string) (dataset : Data) : Data :=
  if String.eqb selection_currency dataset_currency then dataset
  else
    mkData (years dataset)
           (map (Qmult rate) (revenue dataset))
           (revenue_growth dataset)
           (map (Qmult rate) (cost_of_sales dataset))
           (map (Qmult rate) (operating_expenses dataset))
           (cost_ratio dataset)
           (gross_profit_margin dataset)
           (map (Qmult rate) (eps dataset))
           (eps_growth dataset)
           (option_map (map (option_map (Qmult rate))) (net_profit dataset))
           (option_map (map (Qmult rate)) (net_asset_per_share dataset))
           (shareholders dataset).

(** Modelled from the spec: [apply] of the Filter Engine (missing from
    the sources).  The industry tag has no effect on a dataset without a
    segment breakdown, which is the only shape the payload has. *)
Definition apply (dataset_currency : string) (rate : Q)
  (dataset : Data) (selection : Filters.Selection) : Data :=
  convert dataset_currency rate (Filters.currency selection)
          (filter_years dataset (Filters.years selection)).

End Engine.

(* ================================================================== *)
(** ** App: the orchestrator *)
(* ================================================================== *)

Module App.

(** The four [useState] cells of [App]. *)
Record State : Type := mkState {
  data : option Data;
  isLoading : bool;
  error : option string;
  filters : Filters.Selection
}.

Definition initial : State :=
  mkState None false None (Filters.mkSelection [] "All" "LKR").

(** Which handler awaits a request. *)
Inductive request : Type :=
| UploadRequest
| FilterRequest.

(** [handleFileUpload] up to its [await]. *)
Definition handleFileUpload_begin (st : State) : State :=
  mkState (data st) true None (filters st).

(** [handleFilterChange], through [fetchFilteredData] up to its [await]. *)
Definition handleFilterChange_begin (st : State)
  (newFilters : Filters.Selection) : State :=
  mkState (data st) true (error st) newFilters.

(** The [try] branch after the [await], followed by [finally]. *)
Definition on_response (st : State) (payload : Data) : State :=
  mkState (Some payload) false (error st) (filters st).

Definition failure_message (r : request) : string :=
  match r with
  | UploadRequest => "Failed to upload files. Please try again."
  | FilterRequest => "Failed to filter data. Please try again."
  end.

(** The [catch] branch, followed by [finally]. *)
Definition on_failure (st : State) (r : request) : State :=
  mkState (data st) false (Some (failure_message r)) (filters st).

(** The component with its requests in flight.  The source numbers
    nothing; [issued] and the numbers in [in_flight] only name the
    requests, in the order they were issued, so that properties about
    their order can be stated. *)
Record World : Type := mkWorld {
  app : State;
  issued : nat;
  in_flight : list (nat * request)
}.

Definition start : World := mkWorld initial 0 [].

Inductive event : Type :=
| Upload (files : list UploadForm.File)
| FilterChange (newFilters : Filters.Selection)
| Resolve (k : nat) (payload : Data)
| Reject (k : nat).

Fixpoint lookup (k : nat) (l : list (nat * request)) : option request :=
  match l with
  | [] => None
  | (j, r) :: rest => if (j =? k)%nat then Some r else lookup k rest
  end.

Fixpoint remove (k : nat) (l : list (nat * request)) : list (nat * request) :=
  match l with
  | [] => []
  | (j, r) :: rest =>
      if (j =? k)%nat then remove k rest else (j, r) :: remove k rest
  end.

(** One event of the event loop; a completion is possible only for a
    request in flight.  [UploadForm] disables its controls while
    [isLoading] holds, which removes some of the upload events allowed
    here and no other. *)
Definition step (w : World) (e : event) : option World :=
  match e with
  | Upload _ =>
      Some (mkWorld (handleFileUpload_begin (app w)) (S (issued w))
                    (in_flight w ++ [(issued w, UploadRequest)]))
  | FilterChange newFilters =>
      Some (mkWorld (handleFilterChange_begin (app w) newFilters)
                    (S (issued w))
                    (in_flight w ++ [(issued w, FilterRequest)]))
  | Resolve k payload =>
      match lookup k (in_flight w) with
      | Some _ =>
          Some (mkWorld (on_response (app w) payload) (issued w)
                        (remove k (in_flight w)))
      | None => None
      end
  | Reject k =>
      match lookup k (in_flight w) with
      | Some r =>
          Some (mkWorld (on_failure (app w) r) (issued w)
                        (remove k (in_flight w)))
      | None => None
      end
  end.

Fixpoint run (w : World) (evs : list event) : option World :=
  match evs with
  | [] => Some w
  | e :: rest =>
      match step w e with
      | Some w' => run w' rest
      | None => None
      end
  end.

(** The main area of the page. *)
Inductive Main : Type :=
| LoadingView
| UploadPrompt
| Dashboard (d : Data).

(** What [App] renders: the error banner, if any, and the main area. *)
Definition render (st : State) : option string * Main :=
  (error st,
   if isLoading st then LoadingView
   else match data st with
        | None => UploadPrompt
        | Some d => Dashboard d
        end).

(** Whether the response of request [k], completing now, is stale: a
    request with a higher number has been issued already. *)
Definition stale (w : World) (k : nat) : bool := (S k <? issued w)%nat.

(** Whether some response was stored while stale along the run. *)
Fixpoint applies_stale (w : World) (evs : list event) : bool :=
  match evs with
  | [] => false
  | e :: rest =>
      match step w e with
      | Some w' =>
          match e with
          | Resolve k _ => stale w k || applies_stale w' rest
          | _ => applies_stale w' rest
          end
      | None => false
      end
  end.

(** The payload of the last response in a list of events, if any. *)
Fixpoint last_response (evs : list event) (acc : option Data) : option Data :=
  match evs with
  | [] => acc
  | Resolve _ payload :: rest => last_response rest (Some payload)
  | _ :: rest => last_response rest acc
  end.

(** The loop of [handleFileUpload] that fills the form data:
    [for (let i = 0; i < files.length; i++) formData.append('files', files[i])].
    [fuel] bounds the number of iterations. *)
Fixpoint append_files (files : list UploadForm.File) (fuel i : nat)
  (formData : list (string * option UploadForm.File))
  : list (string * option UploadForm.File) :=
  match fuel with
  | O => formData
  | S fuel' =>
      if (i <? List.length files)%nat
      then append_files files fuel' (S i)
                        (formData ++ [("files", nth_error files i)])
      else formData
  end.

(** The body posted to [/api/upload]. *)
Definition formData (files : list UploadForm.File)
  : list (string * option UploadForm.File) :=
  append_files files (List.length files) 0 [].

End App.

(* ================================================================== *)
(** ** The filter form wired to the orchestrator *)
(* ================================================================== *)

(** [<Filters onChange={handleFilterChange} filters={filters} />]: the
    form reads [filters] from the orchestrator and every [onChange] runs
    [handleFilterChange]. *)
Module FilterPanel.

Record Panel : Type := mkPanel {
  local : Filters.Selection;
  orchestrator : App.State
}.

(** The form mounted over an orchestrator state. *)
Definition mount (st : App.State) : Panel :=
  mkPanel (Filters.mounted (App.filters st)) st.

Inductive event : Type :=
| YearChange (selectedYears : list Z)
| IndustryChange (value : string)
| CurrencyChange (value : string)
| ApplyClick.

(** The handler of an event: the new local state and the argument of
    [onChange]. *)
Definition handle (p : Panel) (e : event)
  : Filters.Selection * Filters.Selection :=
  let filters := App.filters (orchestrator p) in
  match e with
  | YearChange selectedYears =>
      Filters.handleYearChange filters (local p) selectedYears
  | IndustryChange value =>
      Filters.handleIndustryChange filters (local p) value
  | CurrencyChange value =>
      Filters.handleCurrencyChange filters (local p) value
  | ApplyClick => (local p, Filters.applyClick (local p))
  end.

Definition step (p : Panel) (e : event) : Panel :=
  let '(local', newFilters) := handle p e in
  mkPanel local' (App.handleFilterChange_begin (orchestrator p) newFilters).

Fixpoint run (p : Panel) (evs : list event) : Panel :=
  match evs with
  | [] => p
  | e :: rest => run (step p e) rest
  end.

End FilterPanel.

(* ================================================================== *)
(** * Vocabulary of the statements *)
(* ================================================================== *)

(** [a] is ranked no lower than [b]. *)
Definition outranks (a b : Shareholder) : Prop :=
  ownership_percentage b <= ownership_percentage a.

(** The entries of a list that own exactly [p] percent, in list order. *)
Definition holding (p : Q) (l : list Shareholder) : list Shareholder :=
  filter (fun s => Qeq_bool (ownership_percentage s) p) l.

(** A file list that [onUpload] may receive: not empty, PDF files only. *)
Definition pdf_batch (fs : list UploadForm.File) : Prop :=
  fs <> [] /\ Forall (fun f => UploadForm.type f = "application/pdf") fs.

(** The shareholders table has nothing to show at index [i]: the table
    is missing, the index is -1 or past the end, or the slot is null. *)
Definition no_entry (table : option (list (option (list Shareholder))))
  (i : Z) : Prop :=
  match table with
  | None => True
  | Some rows =>
      (i < 0)%Z \/ (Z.of_nat (List.length rows) <= i)%Z \/
      nth_error rows (Z.to_nat i) = Some None
  end.

(** Requests do not overlap along a run: each one is issued when none is
    in flight. *)
Fixpoint serial (w : App.World) (evs : list App.event) : bool :=
  match evs with
  | [] => true
  | e :: rest =>
      match App.step w e with
      | Some w' =>
          match e with
          | App.Upload _ | App.FilterChange _ =>
              match App.in_flight w with
              | [] => serial w' rest
              | _ => false
              end
          | _ => serial w' rest
          end
      | None => true
      end
  end.

(** A payload that only carries revenue figures. *)
Definition revenue_only (ys : list Z) (rev : list Q) : Data :=
  mkData (Some ys) rev None [] [] None None [] None None None None.

(** Two filter changes whose responses arrive in the opposite order. *)
Definition overtaking : list App.event :=
  [ App.FilterChange (Filters.mkSelection [2019; 2020]%Z "All" "LKR");
    App.FilterChange (Filters.mkSelection [2023]%Z "All" "LKR");
    App.Resolve 1 (revenue_only [2023]%Z [110]);
    App.Resolve 0 (revenue_only [2019; 2020]%Z [100; 80]) ].

(** At most the latest request is in flight. *)
Definition at_most_latest (w : App.World) : Prop :=
  App.in_flight w = [] \/
  exists r : App.request,
    App.in_flight w = [(App.issued w - 1, r)]%nat /\ (1 <= App.issued w)%nat.

(** The metrics whose chart attaches a year-over-year figure to a year. *)
Inductive metric : Type :=
| Revenue
| EarningsPerShare
| NetAssetPerShare
| GrossMargin.

(** The value series of a metric in the payload. *)
Definition series (m : metric) (d : Data) : option (list Q) :=
  match m with
  | Revenue => Some (revenue d)
  | EarningsPerShare => Some (eps d)
  | NetAssetPerShare => net_asset_per_share d
  | GrossMargin => gross_profit_margin d
  end.

(** The growth series the payload carries for a metric; the charts of net
    asset per share and gross margin read none. *)
Definition payload_growth (m : metric) (d : Data) : option (list (option Q)) :=
  match m with
  | Revenue => revenue_growth d
  | EarningsPerShare => eps_growth d
  | _ => None
  end.

(** The year-over-year figure that the chart of a metric attaches to the
    year at [index] of its main series: the slot read by [RevenueTrend]
    and [EPSTrend], [percentChange] of [NetAssetShare], [change] of
    [GPMargin]; [None] when the callback adds no such figure. *)
Definition yoy_figure (m : metric) (d : Data) (index : nat) : option JS.num :=
  match m with
  | Revenue => option_map JS.Fin (growth_slot (revenue_growth d) index)
  | EarningsPerShare => option_map JS.Fin (growth_slot (eps_growth d) index)
  | NetAssetPerShare =>
      match index, net_asset_per_share d with
      | S _, Some vs => Some (NetAssetShare.percentChange vs index)
      | _, _ => None
      end
  | GrossMargin =>
      match index, gross_profit_margin d with
      | S _, Some vs => Some (GPMargin.change vs index)
      | _, _ => None
      end
  end.

(** [yoy_figure] with the arithmetic of the two computing charts done in
    doubles, rounded by [fl]. *)
Definition yoy_figure_with (fl : Q -> JS.num) (m : metric) (d : Data)
  (index : nat) : option JS.num :=
  match m with
  | Revenue => option_map JS.Fin (growth_slot (revenue_growth d) index)
  | EarningsPerShare => option_map JS.Fin (growth_slot (eps_growth d) index)
  | NetAssetPerShare =>
      match index, net_asset_per_share d with
      | S _, Some vs => Some (Doubles.percentChange fl vs index)
      | _, _ => None
      end
  | GrossMargin =>
      match index, gross_profit_margin d with
      | S _, Some vs => Some (Doubles.change fl vs index)
      | _, _ => None
      end
  end.

(** Relative growth from [previous] to [current], in percent. *)
Definition growth_formula (previous current : Q) : Q :=
  (current - previous) / previous * 100.

(** The growth claim at the year after index [i], as the specification
    words it: the figure is the relative growth, for every metric. *)
Definition growth_as_claimed (m : metric) (d : Data) (i : nat) : Prop :=
  forall (vs : list Q) (p c : Q),
    series m d = Some vs ->
    nth_error vs i = Some p ->
    nth_error vs (S i) = Some c ->
    ~ p == 0 ->
    exists g : Q,
      yoy_figure m d (S i) = Some (JS.Fin g) /\ g == growth_formula p c.

(** A payload that only carries gross profit margins. *)
Definition margins_only (ys : list Z) (margins : list Q) : Data :=
  mkData (Some ys) [] None [] [] None (Some margins) [] None None None None.

(** A six-year dataset with revenue and cost of sales. *)
Definition six_years : Data :=
  mkData (Some [2019; 2020; 2021; 2022; 2023; 2024]%Z)
         [100; 80; 90; 95; 110; 0] None
         [60; 50; 54; 57; 66; 3] [20; 19; 21; 22; 23; 24]
         None None [] None None None None.

(** Two flat years: revenue, earnings and net assets do not move, and
    nothing was spent on sales in the second year. *)
Definition flat_years : Data :=
  mkData (Some [2022; 2023]%Z)
         [100; 100] (Some [Some 0])
         [60; 0] [20; 20]
         (Some [Some 60; Some 0])
         None
         [12; 12] (Some [Some 0]) None
         (Some [90; 90]) None.

(** Entries that own the same percentage are the same entry. *)
Definition ties_are_copies (l : list Shareholder) : Prop :=
  forall a b : Shareholder,
    In a l -> In b l ->
    ownership_percentage a == ownership_percentage b -> a = b.

(** [i] is the position of the first occurrence of [y] in [ys]. *)
Definition first_at (ys : list Z) (y : Z) (i : nat) : Prop :=
  nth_error ys i = Some y /\
  forall j : nat, (j < i)%nat -> nth_error ys j <> Some y.

(** The last selection made of PDF files only among the events, [acc]
    when there is none. *)
Fixpoint last_pdf_selection (evs : list UploadForm.event)
  (acc : list UploadForm.File) : list UploadForm.File :=
  match evs with
  | [] => acc
  | UploadForm.FileChange selected :: rest =>
      last_pdf_selection rest
        (if forallb UploadForm.is_pdf selected then selected else acc)
  | UploadForm.Submit :: rest => last_pdf_selection rest acc
  end.

(** The selection of the last filter change among the events, [acc] when
    there is none. *)
Fixpoint last_filters (evs : list App.event) (acc : Filters.Selection)
  : Filters.Selection :=
  match evs with
  | [] => acc
  | App.FilterChange newFilters :: rest => last_filters rest newFilters
  | _ :: rest => last_filters rest acc
  end.

(** Some event of the form chose years: a change of the year selection
    or a click on the apply button. *)
Definition chooses_years (e : FilterPanel.event) : bool :=
  match e with
  | FilterPanel.YearChange _ | FilterPanel.ApplyClick => true
  | _ => false
  end.

(** The event starts an upload. *)
Definition is_upload (e : App.event) : bool :=
  match e with
  | App.Upload _ => true
  | _ => false
  end.

(** The form and the filters of the orchestrator agree on industry and
    currency, and on the years once some event chose years; before
    that, the form shows all available years and the filters name none. *)
Definition panel_agrees (years_chosen : bool) (p : FilterPanel.Panel) : Prop :=
  let form := FilterPanel.local p in
  let held := App.filters (FilterPanel.orchestrator p) in
  Filters.industry form = Filters.industry held /\
  Filters.currency form = Filters.currency held /\
  if years_chosen then Filters.years form = Filters.years held
  else Filters.years form = Filters.availableYears /\ Filters.years held = [].

(* ================================================================== *)
(** * Properties *)
(* ================================================================== *)

(** ** Sorting in descending order of a key *)

Section DescendingSort.

Context {A : Type}.
Variable key : A -> Q.

(** The comparator shape used by the ranking: [(a, b) => key b - key a]. *)
Let cmp (a b : A) : Q := key b - key a.

(** [a] may stand before [b]. *)
Let before (a b : A) : Prop := key b <= key a.

Let same_key (p : Q) (a : A) : bool := Qeq_bool (key a) p.

Lemma cmp_nonpos (x y : A) :
  Qle_bool (cmp x y) 0 = true <-> key y <= key x.
Proof.
  unfold cmp. rewrite Qle_bool_iff. split; intro H; lra.
Qed.

Lemma cmp_pos (x y : A) :
  Qle_bool (cmp x y) 0 = false -> key x < key y.
Proof.
  intro H. destruct (Qlt_le_dec (key x) (key y)) as [Hlt | Hle]; [exact Hlt |].
  apply cmp_nonpos in Hle. congruence.
Qed.

Lemma insert_perm (x : A) (l : list A) :
  Permutation (x :: l) (JS.insert cmp x l).
Proof.
  induction l as [| y l IH]; simpl.
  - apply Permutation_refl.
  - destruct (Qle_bool (cmp x y) 0).
    + apply Permutation_refl.
    + eapply perm_trans; [apply perm_swap |]. now apply perm_skip.
Qed.

Lemma sort_perm (l : list A) : Permutation l (JS.sort cmp l).
Proof.
  induction l as [| x l IH]; simpl.
  - constructor.
  - eapply perm_trans; [apply perm_skip, IH | apply insert_perm].
Qed.

Lemma insert_sorted (x : A) (l : list A) :
  StronglySorted before l -> StronglySorted before (JS.insert cmp x l).
Proof.
  induction l as [| y l IH]; intro Hs; simpl.
  - repeat constructor.
  - inversion Hs as [| ? ? Hl Hy]; subst.
    destruct (Qle_bool (cmp x y) 0) eqn:E.
    + apply cmp_nonpos in E. constructor; [exact Hs |].
      constructor; [exact E |].
      eapply Forall_impl; [| exact Hy].
      intros z Hz. unfold before in *. lra.
    + apply cmp_pos in E. constructor; [now apply IH |].
      eapply Permutation_Forall; [apply insert_perm |].
      constructor; [unfold before; lra | exact Hy].
Qed.

Lemma sort_sorted (l : list A) : StronglySorted before (JS.sort cmp l).
Proof.
  induction l as [| x l IH]; simpl.
  - constructor.
  - now apply insert_sorted.
Qed.

(** Inserting [x] puts it in front of every element with its key. *)
Lemma insert_filter (p : Q) (x : A) (l : list A) :
  filter (same_key p) (JS.insert cmp x l) = filter (same_key p) (x :: l).
Proof.
  induction l as [| y l IH]; simpl; [reflexivity |].
  destruct (Qle_bool (cmp x y) 0) eqn:E; [reflexivity |].
  apply cmp_pos in E. simpl in *. rewrite IH.
  destruct (same_key p x) eqn:Ex; [| reflexivity].
  destruct (same_key p y) eqn:Ey; [| reflexivity].
  unfold same_key in Ex, Ey. apply Qeq_bool_iff in Ex, Ey.
  exfalso. rewrite Ex, Ey in E. now apply Qlt_irrefl in E.
Qed.

Lemma sort_stable (p : Q) (l : list A) :
  filter (same_key p) (JS.sort cmp l) = filter (same_key p) l.
Proof.
  induction l as [| x l IH]; simpl; [reflexivity |].
  rewrite insert_filter. simpl. now rewrite IH.
Qed.

Lemma insert_head (x : A) (l : list A) :
  Forall (before x) l -> JS.insert cmp x l = x :: l.
Proof.
  destruct l as [| y l]; intro H; simpl; [reflexivity |].
  inversion H as [| ? ? Hy _]; subst.
  apply cmp_nonpos in Hy. now rewrite Hy.
Qed.

Lemma sort_fixes_sorted (l : list A) :
  StronglySorted before l -> JS.sort cmp l = l.
Proof.
  induction 1 as [| x l Hs IH Hx]; simpl; [reflexivity |].
  rewrite IH. now apply insert_head.
Qed.

Lemma firstn_sorted (n : nat) (l : list A) :
  StronglySorted before l -> StronglySorted before (firstn n l).
Proof.
  intro Hs. revert n. induction Hs as [| x l Hs IH Hx]; intro n.
  - rewrite firstn_nil. constructor.
  - destruct n as [| n]; simpl; [constructor |].
    constructor; [apply IH |].
    rewrite Forall_forall in *. intros y Hy. apply Hx.
    rewrite <- (firstn_skipn n l). apply in_or_app. now left.
Qed.

End DescendingSort.

(** ** TopShareholders: the ranking *)

(** C2.  The ranking of a year's shareholder entries is the stable sort of
    the entries by ownership percentage, descending, cut to its first N
    entries, where the component takes N = 10: the sorted list is a
    permutation of the input, every entry is followed only by entries
    owning no more, the entries owning the same percentage appear in
    their input order, and the ranking is the prefix of at most N entries
    of the sorted list. *)
Theorem ranking_is_stable_descending_prefix :
  forall (n : nat) (yearData : list Shareholder),
    let ranked := TopShareholders.sortedShareholders yearData in
    Permutation yearData ranked /\
    StronglySorted outranks ranked /\
    (forall p : Q, holding p ranked = holding p yearData) /\
    TopShareholders.topN n yearData = firstn n ranked /\
    List.length (TopShareholders.topN n yearData)
      = Nat.min n (List.length yearData) /\
    TopShareholders.top10Shareholders yearData
      = TopShareholders.topN 10 yearData.
Proof.
  intros n yearData ranked. subst ranked.
  unfold TopShareholders.sortedShareholders, TopShareholders.topN,
    TopShareholders.top10Shareholders, JS.slice0.
  repeat split.
  - apply (sort_perm ownership_percentage).
  - apply (sort_sorted ownership_percentage).
  - intro p. apply (sort_stable ownership_percentage).
  - rewrite length_firstn. f_equal. symmetry.
    apply Permutation_length, (sort_perm ownership_percentage).
Qed.

(** The scenario of the specification: two holders of 5.0 percent keep
    their input order around and below a larger holder. *)
Example ranking_keeps_tied_order :
  map name (TopShareholders.top10Shareholders
              [ mkShareholder "Trust A" 5; mkShareholder "Fund B" (73 # 10);
                mkShareholder "Trust C" 5 ])
  = ["Fund B"; "Trust A"; "Trust C"].
Proof. reflexivity. Qed.

(** C7.  Ranking is idempotent: ranking and cutting an already ranked and
    cut list with the same N gives that list back. *)
Theorem ranking_idempotent :
  forall (n : nat) (yearData : list Shareholder),
    TopShareholders.topN n (TopShareholders.topN n yearData)
    = TopShareholders.topN n yearData.
Proof.
  intros n yearData.
  unfold TopShareholders.topN at 1. unfold TopShareholders.sortedShareholders.
  assert (Hs : StronglySorted outranks (TopShareholders.topN n yearData)).
  { unfold TopShareholders.topN, JS.slice0.
    apply (firstn_sorted ownership_percentage).
    apply (sort_sorted ownership_percentage). }
  unfold TopShareholders.compareFn.
  rewrite (sort_fixes_sorted ownership_percentage _ Hs).
  unfold TopShareholders.topN, JS.slice0.
  rewrite firstn_firstn. now rewrite Nat.min_id.
Qed.

(** ** UploadForm: only PDF files reach the upload callback *)

Lemma is_pdf_type (f : UploadForm.File) :
  UploadForm.is_pdf f = true <-> UploadForm.type f = "application/pdf".
Proof. unfold UploadForm.is_pdf. apply String.eqb_eq. Qed.

Lemma filter_length_all {A : Type} (f : A -> bool) (l : list A) :
  (List.length (filter f l) =? List.length l)%nat = forallb f l.
Proof.
  induction l as [| x l IH]; simpl; [reflexivity |].
  destruct (f x); simpl; [exact IH |].
  apply Nat.eqb_neq. pose proof (filter_length_le f l). lia.
Qed.

Lemma filter_all {A : Type} (f : A -> bool) (l : list A) :
  forallb f l = true -> filter f l = l.
Proof.
  induction l as [| x l IH]; simpl; [reflexivity |].
  intro H. apply andb_true_iff in H as [Hx Hl].
  rewrite Hx. now rewrite IH.
Qed.

(** What a file selection does to the form, by cases on its content. *)
Lemma handleFileChange_cases (st : UploadForm.State)
  (selected : list UploadForm.File) :
  UploadForm.handleFileChange st selected =
  if forallb UploadForm.is_pdf selected
  then UploadForm.mkState selected
         (JS.nat_to_string (List.length selected) ++ " file(s) selected.")
  else UploadForm.mkState (UploadForm.files st) "Please select only PDF files.".
Proof.
  unfold UploadForm.handleFileChange. rewrite filter_length_all.
  destruct (forallb UploadForm.is_pdf selected) eqn:E; simpl; [| reflexivity].
  now rewrite (filter_all _ _ E).
Qed.

Lemma handleFileChange_keeps_pdf (st : UploadForm.State)
  (selected : list UploadForm.File) :
  Forall (fun f => UploadForm.type f = "application/pdf") (UploadForm.files st) ->
  Forall (fun f => UploadForm.type f = "application/pdf")
         (UploadForm.files (UploadForm.handleFileChange st selected)).
Proof.
  intro H. rewrite handleFileChange_cases.
  destruct (forallb UploadForm.is_pdf selected) eqn:E; simpl; [| exact H].
  rewrite forallb_forall in E. apply Forall_forall.
  intros f Hf. now apply is_pdf_type, E.
Qed.

Lemma run_keeps_pdf (evs : list UploadForm.event) :
  forall (st : UploadForm.State) (calls : list (list UploadForm.File)),
    Forall (fun f => UploadForm.type f = "application/pdf") (UploadForm.files st) ->
    Forall pdf_batch calls ->
    Forall (fun f => UploadForm.type f = "application/pdf")
           (UploadForm.files (fst (UploadForm.run st calls evs))) /\
    Forall pdf_batch (snd (UploadForm.run st calls evs)).
Proof.
  induction evs as [| e evs IH]; intros st calls Hst Hcalls; simpl.
  - now split.
  - destruct e as [selected |].
    + apply IH; [now apply handleFileChange_keeps_pdf | exact Hcalls].
    + unfold UploadForm.handleSubmit.
      destruct (UploadForm.files st) as [| f fs] eqn:E.
      * apply IH; [simpl; constructor | exact Hcalls].
      * apply IH; [now rewrite E |].
        apply Forall_app. split; [exact Hcalls |].
        constructor; [| constructor].
        split; [discriminate | exact Hst].
Qed.

(** C9.  Whatever sequence of file selections and submits the form sees,
    every call of the upload callback carries a non-empty list of files
    that all have type application/pdf; and a selection containing a file
    of another type leaves the stored list as it was and only sets the
    error message, while an all-PDF selection replaces the stored list. *)
Theorem upload_receives_only_pdf :
  forall (evs : list UploadForm.event) (st : UploadForm.State)
         (selected : list UploadForm.File),
    Forall pdf_batch (snd (UploadForm.run UploadForm.initial [] evs)) /\
    UploadForm.handleFileChange st selected =
      if forallb UploadForm.is_pdf selected
      then UploadForm.mkState selected
             (JS.nat_to_string (List.length selected) ++ " file(s) selected.")
      else UploadForm.mkState (UploadForm.files st)
             "Please select only PDF files.".
Proof.
  intros evs st selected. split.
  - apply run_keeps_pdf; constructor.
  - apply handleFileChange_cases.
Qed.

(** A mixed selection after a good one: the stored list survives and is
    what a later submit uploads. *)
Example upload_mixed_selection :
  let report := UploadForm.mkFile "2023.pdf" "application/pdf" in
  let sheet := UploadForm.mkFile "2023.xlsx" "application/vnd.ms-excel" in
  UploadForm.run UploadForm.initial []
    [ UploadForm.Submit; UploadForm.FileChange [report];
      UploadForm.FileChange [report; sheet]; UploadForm.Submit ]
  = (UploadForm.mkState [report] "Please select only PDF files.", [[report]]).
Proof. reflexivity. Qed.

(** ** TopShareholders: the lookup of the selected year *)

Lemma getZ_no_entry (rows : list (option (list Shareholder))) (i : Z) :
  no_entry (Some rows) i -> JS.getZ rows i = None.
Proof.
  unfold no_entry, JS.getZ, JS.get.
  intros [Hneg | [Hpast | Hnull]].
  - apply Z.ltb_lt in Hneg. now rewrite Hneg.
  - destruct (i <? 0)%Z; [reflexivity |].
    assert (Hn : nth_error rows (Z.to_nat i) = None)
      by (apply nth_error_None; lia).
    now rewrite Hn.
  - destruct (i <? 0)%Z; [reflexivity |]. now rewrite Hnull.
Qed.

(** C10, amended.  When the payload has its years and the shareholders
    table is missing, or has no entry at the index of the selected year
    (the year is not in the payload, the table is too short, or the slot
    is null), the year's entries are the empty list and the component
    returns the no-data message, not a chart and not an exception. *)
Theorem missing_shareholders_show_no_data :
  forall (data : Data) (ys : list Z) (selectedYear : option Z),
    years data = Some ys ->
    no_entry (shareholders data) (TopShareholders.yearIndex ys selectedYear) ->
    TopShareholders.yearData data (TopShareholders.yearIndex ys selectedYear) = []
    /\ TopShareholders.render data selectedYear
       = TopShareholders.Ok (TopShareholders.NoDataMessage selectedYear).
Proof.
  intros data ys selectedYear Hys Hno.
  assert (Hyd : TopShareholders.yearData data
                  (TopShareholders.yearIndex ys selectedYear) = []).
  { unfold TopShareholders.yearData.
    destruct (shareholders data) as [rows |]; [| reflexivity].
    now rewrite (getZ_no_entry rows _ Hno). }
  split; [exact Hyd |].
  unfold TopShareholders.render. rewrite Hys, Hyd. reflexivity.
Qed.

Lemma missing_shareholders_show_no_data_witness :
  let data := revenue_only [2019; 2020]%Z [100; 80] in
  TopShareholders.yearData data 1%Z = [] /\
  TopShareholders.render data (Some 2020%Z)
  = TopShareholders.Ok (TopShareholders.NoDataMessage (Some 2020%Z)).
Proof.
  exact (missing_shareholders_show_no_data
           (revenue_only [2019; 2020]%Z [100; 80]) [2019; 2020]%Z
           (Some 2020%Z) eq_refl I).
Defined.

(** C10, as the claim states it, fails: a payload with neither a
    shareholders table nor a years array has its table missing, yet the
    component does not show the no-data message; reading [data.years]
    throws, on the first render and on every later one. *)
Lemma missing_years_make_render_fail :
  let data := mkData None [] None [] [] None None [] None None None None in
  shareholders data = None /\
  (forall i : Z, no_entry (shareholders data) i) /\
  TopShareholders.mount data = TopShareholders.TypeError /\
  TopShareholders.render data (Some 2023%Z) = TopShareholders.TypeError /\
  TopShareholders.render data (Some 2023%Z)
    <> TopShareholders.Ok (TopShareholders.NoDataMessage (Some 2023%Z)).
Proof.
  intro data. split; [reflexivity |]. split; [intro i; exact I |].
  split; [reflexivity |]. split; [reflexivity | discriminate].
Qed.

(** A selected year that the payload no longer has: [indexOf] gives -1 and
    the table is never read at it. *)
Example stale_year_shows_no_data :
  let data :=
    mkData (Some [2022; 2023]%Z) [] None [] [] None None [] None None None
           (Some [Some [mkShareholder "Fund B" 7]; None]) in
  TopShareholders.render data (Some 2019%Z)
    = TopShareholders.Ok (TopShareholders.NoDataMessage (Some 2019%Z)) /\
  TopShareholders.render data (Some 2023%Z)
    = TopShareholders.Ok (TopShareholders.NoDataMessage (Some 2023%Z)) /\
  TopShareholders.render data (Some 2022%Z)
    = TopShareholders.Ok (TopShareholders.BarChart ["Fund B"] [7]).
Proof. repeat split. Qed.

(** ** App: requests and their completions *)

(** C6.  A failed upload or filter request leaves the dataset as it was,
    sets the error message and ends loading, so the page shows the error
    banner over the dashboard of the dataset held before (or over the
    upload prompt when there was none); and the only event that changes
    the dataset is a successful response, which stores its payload. *)
Theorem failure_retains_dataset :
  forall (w w' : App.World) (e : App.event),
    App.step w e = Some w' ->
    (forall k : nat, e = App.Reject k ->
       App.data (App.app w') = App.data (App.app w) /\
       App.isLoading (App.app w') = false /\
       exists r : App.request,
         App.lookup k (App.in_flight w) = Some r /\
         App.error (App.app w') = Some (App.failure_message r) /\
         App.render (App.app w')
         = (Some (App.failure_message r),
            match App.data (App.app w) with
            | Some d => App.Dashboard d
            | None => App.UploadPrompt
            end)) /\
    (App.data (App.app w') <> App.data (App.app w) ->
       exists (k : nat) (payload : Data),
         e = App.Resolve k payload /\ App.data (App.app w') = Some payload).
Proof.
  intros w w' e Hstep. split.
  - intros k ->. simpl in Hstep.
    destruct (App.lookup k (App.in_flight w)) as [r |] eqn:Hk; [| discriminate].
    injection Hstep as <-. simpl. repeat split.
    exists r. repeat split.
  - intro Hchanged. destruct e as [fs | nf | k payload | k]; simpl in Hstep.
    + injection Hstep as <-. now elim Hchanged.
    + injection Hstep as <-. now elim Hchanged.
    + destruct (App.lookup k (App.in_flight w)); [| discriminate].
      injection Hstep as <-. now exists k, payload.
    + destruct (App.lookup k (App.in_flight w)); [| discriminate].
      injection Hstep as <-. now elim Hchanged.
Qed.

Lemma failure_retains_dataset_witness :
  let held := revenue_only [2019; 2020]%Z [100; 80] in
  let w := App.mkWorld (App.mkState (Some held) true None
                          (Filters.mkSelection [2019]%Z "All" "LKR"))
                       1 [(0%nat, App.FilterRequest)] in
  let w' := App.mkWorld (App.mkState (Some held) false
                           (Some "Failed to filter data. Please try again.")
                           (Filters.mkSelection [2019]%Z "All" "LKR"))
                        1 [] in
  App.data (App.app w') = App.data (App.app w) /\
  App.render (App.app w')
  = (Some "Failed to filter data. Please try again.", App.Dashboard held).
Proof.
  intros held w w'.
  destruct (failure_retains_dataset w w' (App.Reject 0) eq_refl) as [Hrej _].
  destruct (Hrej 0%nat eq_refl) as (Hdata & _ & _).
  split; [exact Hdata | reflexivity].
Defined.

Lemma run_last_response (evs : list App.event) :
  forall w w' : App.World,
    App.run w evs = Some w' ->
    App.data (App.app w') = App.last_response evs (App.data (App.app w)).
Proof.
  induction evs as [| e evs IH]; intros w w' Hrun; simpl in Hrun.
  - now injection Hrun as <-.
  - destruct (App.step w e) as [w1 |] eqn:Hstep; [| discriminate].
    rewrite (IH _ _ Hrun).
    destruct e as [fs | nf | k payload | k]; simpl in Hstep |- *.
    + now injection Hstep as <-.
    + now injection Hstep as <-.
    + destruct (App.lookup k (App.in_flight w)); [| discriminate].
      now injection Hstep as <-.
    + destruct (App.lookup k (App.in_flight w)); [| discriminate].
      now injection Hstep as <-.
Qed.

Lemma lookup_latest (w : App.World) (k : nat) (r : App.request) :
  at_most_latest w ->
  App.lookup k (App.in_flight w) = Some r ->
  App.stale w k = false /\ App.remove k (App.in_flight w) = [].
Proof.
  intros [Hnone | (r' & Hone & Hpos)] Hk.
  - rewrite Hnone in Hk. discriminate.
  - rewrite Hone in Hk |- *. simpl in Hk |- *.
    destruct (App.issued w - 1 =? k)%nat eqn:E; [| discriminate].
    apply Nat.eqb_eq in E. split; [| reflexivity].
    unfold App.stale. apply Nat.ltb_ge. lia.
Qed.

Lemma serial_never_stale (evs : list App.event) :
  forall w : App.World,
    at_most_latest w -> serial w evs = true -> App.applies_stale w evs = false.
Proof.
  induction evs as [| e evs IH]; intros w Hw Hser; simpl in *; [reflexivity |].
  destruct e as [fs | nf | k payload | k]; simpl in *.
  - destruct (App.in_flight w) eqn:Hfl; [| discriminate].
    apply IH; [| exact Hser].
    right. exists App.UploadRequest. simpl. rewrite Nat.sub_0_r.
    split; [reflexivity | lia].
  - destruct (App.in_flight w) eqn:Hfl; [| discriminate].
    apply IH; [| exact Hser].
    right. exists App.FilterRequest. simpl. rewrite Nat.sub_0_r.
    split; [reflexivity | lia].
  - destruct (App.lookup k (App.in_flight w)) as [r |] eqn:Hk; [| reflexivity].
    destruct (lookup_latest w k r Hw Hk) as [Hfresh Hgone].
    rewrite Hfresh. simpl. apply IH; [| exact Hser].
    left. simpl. exact Hgone.
  - destruct (App.lookup k (App.in_flight w)) as [r |] eqn:Hk; [| reflexivity].
    destruct (lookup_latest w k r Hw Hk) as [_ Hgone].
    apply IH; [| exact Hser].
    left. simpl. exact Hgone.
Qed.

(** C5, as the specification states it, fails: with two filter changes in
    flight, the response of the second arrives first and is stored, then
    the response of the first arrives and is stored over it, although a
    later request had been issued; the page ends on the older selection's
    data. *)
Lemma stale_response_is_applied :
  App.applies_stale App.start overtaking = true /\
  option_map (fun w => App.data (App.app w)) (App.run App.start overtaking)
  = Some (Some (revenue_only [2019; 2020]%Z [100; 80])).
Proof. split; reflexivity. Qed.

(** C5, amended.  The orchestrator compares no sequence number: every
    successful response is stored when it completes, so after any
    interleaving of requests and completions the dataset held is the
    payload of the response that completed last (none if no response
    completed).  No stale response is stored in the runs where each
    request is issued only after the earlier ones have completed. *)
Theorem last_completion_wins :
  forall (evs : list App.event) (w : App.World),
    App.run App.start evs = Some w ->
    App.data (App.app w) = App.last_response evs None /\
    (serial App.start evs = true -> App.applies_stale App.start evs = false).
Proof.
  intros evs w Hrun. split.
  - exact (run_last_response evs App.start w Hrun).
  - apply serial_never_stale. now left.
Qed.

Lemma last_completion_wins_witness :
  let evs := [ App.Upload [UploadForm.mkFile "2020.pdf" "application/pdf"];
               App.Resolve 0 (revenue_only [2019; 2020]%Z [100; 80]);
               App.FilterChange (Filters.mkSelection [2020]%Z "All" "LKR");
               App.Resolve 1 (revenue_only [2020]%Z [80]) ] in
  exists w : App.World,
    App.run App.start evs = Some w /\
    App.data (App.app w) = Some (revenue_only [2020]%Z [80]) /\
    App.applies_stale App.start evs = false.
Proof.
  intro evs. eexists. split; [reflexivity |].
  split.
  - exact (proj1 (last_completion_wins evs _ eq_refl)).
  - exact (proj2 (last_completion_wins evs _ eq_refl) eq_refl).
Defined.

(** ** Filters and the Filter Engine: the empty selection *)

(** C4.  A selection with no requested year yields the full dataset: the
    view has all the years of the dataset, in order, with as many revenue
    figures, and is the dataset itself when no currency conversion is
    asked for; the result is a view, never an error.  On the side of the
    front end, the year selector forwards an empty choice unchanged, and
    starts with all available years selected when the filters it is
    given name none. *)
Theorem empty_selection_yields_full_dataset :
  forall (dataset_currency : string) (rate : Q) (dataset : Data)
         (filters local selection : Filters.Selection),
    Filters.years selection = [] ->
    years (Engine.apply dataset_currency rate dataset selection)
      = years dataset /\
    List.length (revenue (Engine.apply dataset_currency rate dataset selection))
      = List.length (revenue dataset) /\
    (Filters.currency selection = dataset_currency ->
       Engine.apply dataset_currency rate dataset selection = dataset) /\
    snd (Filters.handleYearChange filters local [])
      = Filters.mkSelection [] (Filters.industry filters)
                            (Filters.currency filters) /\
    (Filters.years filters = [] ->
       Filters.years (Filters.mounted filters) = Filters.availableYears).
Proof.
  intros dc rate dataset filters local selection Hempty.
  unfold Engine.apply. rewrite Hempty. simpl Engine.filter_years.
  unfold Engine.convert. repeat split.
  - now destruct (String.eqb (Filters.currency selection) dc).
  - destruct (String.eqb (Filters.currency selection) dc); simpl;
      [reflexivity | apply length_map].
  - intros ->. now rewrite String.eqb_refl.
  - intro Hnone. unfold Filters.mounted, Filters.mountEffect, Filters.init.
    simpl. now rewrite Hnone.
Qed.

Lemma empty_selection_yields_full_dataset_witness :
  let selection := Filters.mkSelection [] "All" "LKR" in
  years (Engine.apply "LKR" (1 # 300) six_years selection)
    = Some [2019; 2020; 2021; 2022; 2023; 2024]%Z /\
  Engine.apply "LKR" (1 # 300) six_years selection = six_years.
Proof.
  intro selection.
  destruct (empty_selection_yields_full_dataset "LKR" (1 # 300) six_years
              selection selection selection eq_refl)
    as (Hyears & _ & Hsame & _).
  split; [exact Hyears | exact (Hsame eq_refl)].
Defined.

(** A non-empty selection narrows the view and keeps the order of the
    years it retains. *)
Example narrowed_view_keeps_order :
  let view := Engine.filter_years six_years [2023; 2019]%Z in
  years view = Some [2019; 2023]%Z /\ revenue view = [100; 110].
Proof. split; reflexivity. Qed.

(** ** Derived series *)

Lemma Qis_zero_true (q : Q) : q == 0 -> JS.Qis_zero q = true.
Proof. intro H. now apply Qeq_bool_iff. Qed.

Lemma Qis_zero_false (q : Q) : ~ q == 0 -> JS.Qis_zero q = false.
Proof.
  intro H. unfold JS.Qis_zero. destruct (Qeq_bool q 0) eqn:E; [| reflexivity].
  now apply Qeq_bool_iff in E.
Qed.

Lemma cost_ratio_series_nth (costs revs : list Q) :
  forall (i : nat) (cost rev : Q),
    nth_error costs i = Some cost ->
    nth_error revs i = Some rev ->
    nth_error (Engine.cost_ratio_series costs revs) i
    = Some (Engine.cost_ratio_at cost rev).
Proof.
  revert revs. induction costs as [| c costs IH]; intros revs i cost rev Hc Hr.
  - now destruct i.
  - destruct revs as [| r revs]; [now destruct i |].
    destruct i as [| i]; simpl in *.
    + now injection Hc as ->; injection Hr as ->.
    + now apply IH.
Qed.

Lemma growth_series_length (vs : list Q) :
  List.length (Engine.growth_series vs) = (List.length vs - 1)%nat.
Proof.
  induction vs as [| p rest IH]; [reflexivity |].
  destruct rest as [| c rest]; [reflexivity |].
  change (S (List.length (Engine.growth_series (c :: rest)))
          = (List.length (p :: c :: rest) - 1)%nat).
  rewrite IH. simpl. lia.
Qed.

Lemma growth_series_nth (vs : list Q) :
  forall (i : nat) (p c : Q),
    nth_error vs i = Some p ->
    nth_error vs (S i) = Some c ->
    nth_error (Engine.growth_series vs) i = Some (Engine.growth_at p c).
Proof.
  induction vs as [| v rest IH]; intros i p c Hp Hc; [now destruct i |].
  destruct rest as [| v' rest]; [now destruct i |].
  destruct i as [| i].
  - simpl in Hp, Hc. injection Hp as ->. injection Hc as ->. reflexivity.
  - change (nth_error (Engine.growth_series (v' :: rest)) i
            = Some (Engine.growth_at p c)).
    now apply IH.
Qed.

(** C3.  In the derived view, the cost-to-revenue slot of a year whose
    revenue is zero is absent (it holds no number at all, so the tooltip
    of that year gets no ratio line), and the slot of a year with
    non-zero revenue holds cost_of_sales / revenue * 100. *)
Theorem cost_ratio_absent_on_zero_revenue :
  forall (view : Data) (i : nat) (cost rev : Q),
    nth_error (cost_of_sales view) i = Some cost ->
    nth_error (revenue view) i = Some rev ->
    let ratios := Engine.cost_ratio_series (cost_of_sales view) (revenue view) in
    cost_ratio (Engine.derive view) = Some ratios /\
    (rev == 0 ->
       nth_error ratios i = Some None /\
       CostExpenses.afterBody (Engine.derive view) i = None) /\
    (~ rev == 0 -> nth_error ratios i = Some (Some (cost / rev * 100))).
Proof.
  intros view i cost rev Hc Hr ratios.
  pose proof (cost_ratio_series_nth _ _ i cost rev Hc Hr) as Hnth.
  fold ratios in Hnth. unfold Engine.cost_ratio_at in Hnth.
  split; [reflexivity |]. split.
  - intro Hz. rewrite (Qis_zero_true _ Hz) in Hnth. split; [exact Hnth |].
    unfold CostExpenses.afterBody. simpl cost_ratio. fold ratios.
    unfold JS.get. now rewrite Hnth.
  - intro Hnz. now rewrite (Qis_zero_false _ Hnz) in Hnth.
Qed.

Lemma cost_ratio_absent_on_zero_revenue_witness :
  let ratios :=
    Engine.cost_ratio_series (cost_of_sales six_years) (revenue six_years) in
  nth_error ratios 5 = Some None /\
  CostExpenses.afterBody (Engine.derive six_years) 5 = None /\
  nth_error ratios 1 = Some (Some (50 / 80 * 100)).
Proof.
  intro ratios.
  destruct (cost_ratio_absent_on_zero_revenue six_years 5 3 0 eq_refl eq_refl)
    as (_ & Hzero & _).
  destruct (cost_ratio_absent_on_zero_revenue six_years 1 50 80 eq_refl eq_refl)
    as (_ & _ & Hratio).
  destruct (Hzero (Qeq_refl 0)) as [Habsent Hline].
  split; [exact Habsent |]. split; [exact Hline |].
  apply Hratio. intro H. discriminate H.
Defined.

(** ** Year-over-year figures *)

(** The figure of [yoy_figure] is the one the callbacks print. *)
Lemma RevenueTrend_prints_figure (d : Data) (ctx : Context) :
  RevenueTrend.afterLabel d ctx =
  match yoy_figure Revenue d (dataIndex ctx) with
  | Some (JS.Fin growth) => Some (growth_line growth)
  | _ => None
  end.
Proof.
  unfold RevenueTrend.afterLabel, yoy_figure.
  now destruct (growth_slot (revenue_growth d) (dataIndex ctx)).
Qed.

Lemma EPSTrend_prints_figure (d : Data) (index : nat) :
  EPSTrend.growth_lines d index =
  match yoy_figure EarningsPerShare d index with
  | Some (JS.Fin growth) => [growth_line growth]
  | _ => []
  end.
Proof.
  unfold EPSTrend.growth_lines, yoy_figure.
  now destruct (growth_slot (eps_growth d) index).
Qed.

Lemma NetAssetShare_prints_figure (d : Data) (ctx : Context) :
  datasetIndex ctx = 0%nat ->
  option_map (fun lines => nth 1 lines EmptyString)
             (NetAssetShare.afterLabel d ctx) =
  option_map (fun g => "YoY Growth: " ++ JS.toFixed 1 g ++ "%")
             (yoy_figure NetAssetPerShare d (dataIndex ctx)).
Proof.
  intro H0. unfold NetAssetShare.afterLabel, yoy_figure. rewrite H0.
  destruct (dataIndex ctx); [reflexivity |].
  now destruct (net_asset_per_share d).
Qed.

Lemma GPMargin_prints_figure (d : Data) (ctx : Context) :
  datasetIndex ctx = 0%nat ->
  GPMargin.afterLabel d ctx =
  option_map (fun g => "YoY Change: " ++ (if JS.gt0 g then "+" else EmptyString)
                         ++ JS.toFixed 2 g ++ " percentage points")
             (yoy_figure GrossMargin d (dataIndex ctx)).
Proof.
  intro H0. unfold GPMargin.afterLabel, yoy_figure. rewrite H0.
  destruct (dataIndex ctx); [reflexivity |].
  now destruct (gross_profit_margin d).
Qed.

Lemma growth_slot_value (gs : list (option Q)) (i : nat) (g : Q) :
  JS.get gs i = Some g -> ~ g == 0 -> growth_slot (Some gs) (S i) = Some g.
Proof.
  intros Hg Hnz. unfold growth_slot. rewrite Hg. simpl.
  now rewrite (Qis_zero_false _ Hnz).
Qed.

(** C1, as the specification states it, fails for gross margin: from a
    margin of 20 to a margin of 25 the chart derives the change of 5
    percentage points, while the relative growth is 25 percent. *)
Lemma gross_margin_figure_is_not_relative_growth :
  ~ growth_as_claimed GrossMargin (margins_only [2022; 2023]%Z [20; 25]) 0.
Proof.
  intro H.
  destruct (H [20; 25] 20 25 eq_refl eq_refl eq_refl) as (g & Hfig & Hg).
  - intro Hz. discriminate Hz.
  - injection Hfig as <-. discriminate Hg.
Qed.

Lemma round_exact (x : JS.num) : Doubles.round JS.Fin x = x.
Proof. now destruct x. Qed.

(** With exact rounding the figures are those of [yoy_figure]. *)
Lemma yoy_figure_exact (m : metric) (d : Data) (index : nat) :
  yoy_figure_with JS.Fin m d index = yoy_figure m d index.
Proof.
  destruct m; try reflexivity; simpl;
    destruct index; try reflexivity;
    [destruct (net_asset_per_share d) | destruct (gross_profit_margin d)];
    try reflexivity; f_equal.
  - unfold Doubles.percentChange, Doubles.change, Doubles.mul, Doubles.div,
      Doubles.sub. now rewrite !round_exact.
  - unfold Doubles.change, Doubles.sub. now rewrite round_exact.
Qed.

(** C1, amended.  In every non-empty view the first year has no
    year-over-year figure, for any of the four metrics.  For revenue and
    EPS the growth series has one slot less than the view; for a year
    i >= 1 whose previous value is not zero, slot i - 1 holds
    (value[i] - value[i-1]) / value[i-1] * 100; the chart of year i shows
    the value of slot i - 1 of the series in the payload when that value
    is not zero, hence this growth when the payload carries this series.
    For net asset per share the chart of a year i >= 1 with a non-zero
    previous value computes (value[i] - value[i-1]) / value[i-1] * 100
    itself, each operation in double arithmetic, and the figure is
    exactly that quotient when the three operations are exact.  For
    gross margin the chart derives the difference value[i] - value[i-1],
    in percentage points and rounded as a double, and no relative
    growth.  (Below, year i is at index [S i].) *)
Theorem yoy_growth_by_metric :
  (forall (fl : Q -> JS.num) (m : metric) (d : Data),
     yoy_figure_with fl m d 0 = None) /\
  (forall vs : list Q,
     List.length (Engine.growth_series vs) = (List.length vs - 1)%nat) /\
  (forall (vs : list Q) (i : nat) (p c : Q),
     nth_error vs i = Some p ->
     nth_error vs (S i) = Some c ->
     ~ p == 0 ->
     nth_error (Engine.growth_series vs) i
     = Some (Some (growth_formula p c))) /\
  (forall (fl : Q -> JS.num) (m : metric) (d : Data)
          (gs : list (option Q)) (i : nat) (g : Q),
     m = Revenue \/ m = EarningsPerShare ->
     payload_growth m d = Some gs ->
     JS.get gs i = Some g ->
     ~ g == 0 ->
     yoy_figure_with fl m d (S i) = Some (JS.Fin g)) /\
  (forall (fl : Q -> JS.num) (m : metric) (d : Data)
          (vs : list Q) (i : nat) (p c : Q),
     m = Revenue \/ m = EarningsPerShare ->
     series m d = Some vs ->
     payload_growth m d = Some (Engine.growth_series vs) ->
     nth_error vs i = Some p ->
     nth_error vs (S i) = Some c ->
     ~ p == 0 ->
     ~ growth_formula p c == 0 ->
     yoy_figure_with fl m d (S i) = Some (JS.Fin (growth_formula p c))) /\
  (forall (fl : Q -> JS.num) (d : Data) (vs : list Q) (i : nat) (p c : Q),
     net_asset_per_share d = Some vs ->
     nth_error vs i = Some p ->
     nth_error vs (S i) = Some c ->
     ~ p == 0 ->
     yoy_figure_with fl NetAssetPerShare d (S i)
     = Some (Doubles.mul fl
               (Doubles.div fl (Doubles.sub fl (JS.Fin c) (JS.Fin p))
                            (JS.Fin p))
               (JS.Fin 100)) /\
     (fl (c - p) = JS.Fin (c - p) ->
      fl ((c - p) / p) = JS.Fin ((c - p) / p) ->
      fl ((c - p) / p * 100) = JS.Fin ((c - p) / p * 100) ->
      yoy_figure_with fl NetAssetPerShare d (S i)
      = Some (JS.Fin (growth_formula p c)))) /\
  (forall (fl : Q -> JS.num) (d : Data) (vs : list Q) (i : nat) (p c : Q),
     gross_profit_margin d = Some vs ->
     nth_error vs i = Some p ->
     nth_error vs (S i) = Some c ->
     yoy_figure_with fl GrossMargin d (S i) = Some (fl (c - p))).
Proof.
  assert (Hslot : forall (vs : list Q) (i : nat) (p c : Q),
            nth_error vs i = Some p ->
            nth_error vs (S i) = Some c ->
            ~ p == 0 ->
            nth_error (Engine.growth_series vs) i
            = Some (Some (growth_formula p c))).
  { intros vs i p c Hp Hc Hnz. rewrite (growth_series_nth vs i p c Hp Hc).
    unfold Engine.growth_at. now rewrite (Qis_zero_false _ Hnz). }
  assert (Hread : forall (fl : Q -> JS.num) (m : metric) (d : Data)
                         (gs : list (option Q)) (i : nat) (g : Q),
            m = Revenue \/ m = EarningsPerShare ->
            payload_growth m d = Some gs ->
            JS.get gs i = Some g ->
            ~ g == 0 ->
            yoy_figure_with fl m d (S i) = Some (JS.Fin g)).
  { intros fl m d gs i g [-> | ->] Hgs Hg Hg0; simpl in Hgs;
      unfold yoy_figure_with;
      now rewrite Hgs, (growth_slot_value gs i g Hg Hg0). }
  split; [| split; [| split; [| split; [| split; [| split]]]]].
  - intros fl m d. now destruct m.
  - apply growth_series_length.
  - exact Hslot.
  - exact Hread.
  - intros fl m d vs i p c Hm Hvs Hgs Hp Hc Hnz Hg0.
    apply (Hread fl m d (Engine.growth_series vs) i); try assumption.
    unfold JS.get. now rewrite (Hslot vs i p c Hp Hc Hnz).
  - intros fl d vs i p c Hvs Hp Hc Hnz.
    assert (Hfig : yoy_figure_with fl NetAssetPerShare d (S i)
                   = Some (Doubles.mul fl
                             (Doubles.div fl
                                (Doubles.sub fl (JS.Fin c) (JS.Fin p))
                                (JS.Fin p))
                             (JS.Fin 100))).
    { unfold yoy_figure_with. rewrite Hvs.
      unfold Doubles.percentChange, Doubles.change.
      replace (S i - 1)%nat with i by lia. now rewrite Hp, Hc. }
    split; [exact Hfig |].
    intros Hsub Hdiv Hmul. rewrite Hfig.
    unfold Doubles.mul, Doubles.div, Doubles.sub. simpl. rewrite Hsub.
    simpl. rewrite (Qis_zero_false _ Hnz). simpl. rewrite Hdiv.
    simpl. now rewrite Hmul.
  - intros fl d vs i p c Hvs Hp Hc.
    unfold yoy_figure_with. rewrite Hvs. unfold Doubles.change.
    replace (S i - 1)%nat with i by lia. now rewrite Hp, Hc.
Qed.

Lemma yoy_growth_by_metric_witness :
  let d := Engine.derive six_years in
  yoy_figure Revenue d 0 = None /\
  nth_error (Engine.growth_series (revenue six_years)) 0
    = Some (Some (growth_formula 100 80)) /\
  yoy_figure Revenue d 1 = Some (JS.Fin (growth_formula 100 80)) /\
  yoy_figure NetAssetPerShare flat_years 1
    = Some (JS.Fin (growth_formula 90 90)) /\
  yoy_figure GrossMargin (margins_only [2022; 2023]%Z [20; 25]) 1
    = Some (JS.Fin (25 - 20)).
Proof.
  intro d.
  destruct yoy_growth_by_metric
    as (Hfirst & _ & Hslot & _ & Hderived & Hnet & Hmargin).
  assert (Hnz : ~ 100 == 0) by (intro H; discriminate H).
  assert (Hnz' : ~ 90 == 0) by (intro H; discriminate H).
  assert (Hg : ~ growth_formula 100 80 == 0) by (intro H; discriminate H).
  rewrite <- !yoy_figure_exact.
  split; [apply Hfirst |].
  split; [exact (Hslot (revenue six_years) 0%nat 100 80 eq_refl eq_refl Hnz) |].
  split; [exact (Hderived JS.Fin Revenue d (revenue six_years) 0%nat 100 80
                   (or_introl eq_refl) eq_refl eq_refl eq_refl eq_refl Hnz Hg) |].
  split.
  - exact (proj2 (Hnet JS.Fin flat_years [90; 90] 0%nat 90 90
                    eq_refl eq_refl eq_refl Hnz')
                 eq_refl eq_refl eq_refl).
  - exact (Hmargin JS.Fin (margins_only [2022; 2023]%Z [20; 25]) [20; 25]
             0%nat 20 25 eq_refl eq_refl eq_refl).
Defined.

(** The scenario of the specification: revenue 100, 80, 90, 95, 110 gives
    a growth of -20 for the second year, printed as such, and nothing
    for the first year. *)
Example revenue_growth_scenario :
  let d := Engine.derive (revenue_only [2019; 2020; 2021; 2022; 2023]%Z
                                       [100; 80; 90; 95; 110]) in
  growth_formula 100 80 == -20 /\
  RevenueTrend.afterLabel d (mkContext "Revenue (Billions)" 0 1 (Some 80))
    = Some "YoY Growth: -20.0%" /\
  RevenueTrend.afterLabel d (mkContext "Revenue (Billions)" 0 0 (Some 100))
    = None.
Proof. split; [reflexivity | split; reflexivity]. Qed.

(** ** Tooltips: a growth or ratio of exactly zero *)

(** C8.  The tooltip of a year carries the unit-qualified value, and the
    growth or ratio figure when the series holds a non-zero one; but a
    figure of exactly zero is dropped by [RevenueTrend], [EPSTrend] and
    [CostExpenses], whose guard takes a zero slot for a missing one.
    [NetAssetShare], which computes its figure, prints a zero growth. *)
Theorem zero_figure_missing_from_tooltip :
  let ctx := mkContext "Revenue (Billions)" 0 1 (Some 100) in
  (* the series define a value, zero, for the second year *)
  option_map (fun gs => JS.get gs 0) (revenue_growth flat_years)
    = Some (Some 0) /\
  option_map (fun gs => JS.get gs 0) (eps_growth flat_years)
    = Some (Some 0) /\
  option_map (fun rs => JS.get rs 1) (cost_ratio flat_years)
    = Some (Some 0) /\
  (* the value is printed, the figure is not *)
  RevenueTrend.label ctx = "Revenue (Billions): 100.00 Billion" /\
  RevenueTrend.afterLabel flat_years ctx = None /\
  EPSTrend.afterLabel flat_years ctx = [] /\
  CostExpenses.afterBody flat_years 1 = None /\
  (* a non-zero ratio and a computed zero growth are printed *)
  CostExpenses.afterBody flat_years 0 = Some ["Cost-to-Revenue Ratio: 60.0%"] /\
  NetAssetShare.afterLabel flat_years ctx
    = Some ["YoY Change: 0.00 LKR"; "YoY Growth: 0.0%"].
Proof. repeat split. Qed.

(* ================================================================== *)
(** * Further properties of the components *)
(* ================================================================== *)

(** ** TopShareholders: what the ranking shows and leaves out *)

Section DescendingOrder.

Context {A : Type}.
Variable key : A -> Q.

Let before (a b : A) : Prop := key b <= key a.

Lemma sorted_app_before (l1 l2 : list A) :
  StronglySorted before (l1 ++ l2)%list ->
  forall a b : A, In a l1 -> In b l2 -> before a b.
Proof.
  induction l1 as [| x l1 IH]; intros Hs a b Ha Hb; [destruct Ha |].
  simpl in Hs. inversion Hs as [| ? ? Hrest Hx]; subst.
  destruct Ha as [<- | Ha].
  - rewrite Forall_forall in Hx. apply Hx, in_or_app. now right.
  - now apply IH.
Qed.

(** Two descending arrangements of the same entries differ at most in
    the order of distinct entries with equal keys. *)
Lemma sorted_perm_unique (l : list A) :
  forall l' : list A,
    StronglySorted before l ->
    StronglySorted before l' ->
    Permutation l l' ->
    (forall a b : A, In a l -> In b l -> key a == key b -> a = b) ->
    l = l'.
Proof.
  induction l as [| x xs IH]; intros l' Hs Hs' Hp Hties.
  - now apply Permutation_nil in Hp.
  - destruct l' as [| y ys].
    + apply Permutation_sym, Permutation_nil in Hp. discriminate.
    + assert (Hxy : x = y).
      { assert (Hx : In x (y :: ys))
          by (apply (Permutation_in _ Hp); now left).
        assert (Hy : In y (x :: xs))
          by (apply (Permutation_in _ (Permutation_sym Hp)); now left).
        destruct Hx as [-> | Hx]; [reflexivity |].
        destruct Hy as [<- | Hy]; [reflexivity |].
        inversion Hs as [| ? ? _ Hfx]; inversion Hs' as [| ? ? _ Hfy]; subst.
        rewrite Forall_forall in Hfx, Hfy.
        apply Hties; [now left | now right |].
        apply Qle_antisym; [apply (Hfy x Hx) | apply (Hfx y Hy)]. }
      subst y. f_equal.
      inversion Hs; inversion Hs'; subst.
      apply IH; [assumption | assumption | |].
      * now apply Permutation_cons_inv in Hp.
      * intros a b Ha Hb. apply Hties; now right.
Qed.

End DescendingOrder.

(** X1.  No entry left out of the ranking owns more than an entry shown:
    the sorted list is the ranking followed by the entries left out, and
    every entry shown owns at least as much as every entry left out. *)
Theorem ranking_dominates_omitted :
  forall (n : nat) (yearData : list Shareholder),
    let ranked := TopShareholders.sortedShareholders yearData in
    ranked = (TopShareholders.topN n yearData ++ skipn n ranked)%list /\
    forall a b : Shareholder,
      In a (TopShareholders.topN n yearData) ->
      In b (skipn n ranked) ->
      ownership_percentage b <= ownership_percentage a.
Proof.
  intros n yearData ranked.
  assert (Hsplit : ranked
            = (TopShareholders.topN n yearData ++ skipn n ranked)%list)
    by (symmetry; apply firstn_skipn).
  split; [exact Hsplit |].
  apply (sorted_app_before ownership_percentage).
  rewrite <- Hsplit. apply (sort_sorted ownership_percentage).
Qed.

(** X2.  A year with at most N entries loses none of them: the ranking is
    then a rearrangement of all the entries of the year. *)
Theorem ranking_keeps_short_tables :
  forall (n : nat) (yearData : list Shareholder),
    (List.length yearData <= n)%nat ->
    Permutation yearData (TopShareholders.topN n yearData).
Proof.
  intros n yearData Hlen.
  unfold TopShareholders.topN, JS.slice0, TopShareholders.sortedShareholders.
  pose proof (sort_perm ownership_percentage yearData) as Hp.
  rewrite firstn_all2; [exact Hp |].
  apply Permutation_length in Hp. unfold TopShareholders.compareFn.
  rewrite <- Hp. exact Hlen.
Qed.

Lemma ranking_keeps_short_tables_witness :
  Permutation
    [mkShareholder "Trust A" 5; mkShareholder "Fund B" 7]
    (TopShareholders.topN 10
       [mkShareholder "Trust A" 5; mkShareholder "Fund B" 7]).
Proof.
  apply ranking_keeps_short_tables. simpl. lia.
Defined.

(** X3.  The ranking does not depend on the order of the rows of the
    payload, as long as entries owning the same percentage are copies of
    one entry: two arrangements of such a table rank alike. *)
Theorem ranking_ignores_row_order :
  forall (n : nat) (rows rows' : list Shareholder),
    Permutation rows rows' ->
    ties_are_copies rows ->
    TopShareholders.topN n rows = TopShareholders.topN n rows'.
Proof.
  intros n rows rows' Hp Hties.
  unfold TopShareholders.topN. f_equal.
  unfold TopShareholders.sortedShareholders.
  pose proof (sort_perm ownership_percentage rows) as Hs.
  pose proof (sort_perm ownership_percentage rows') as Hs'.
  apply (sorted_perm_unique ownership_percentage).
  - apply (sort_sorted ownership_percentage).
  - apply (sort_sorted ownership_percentage).
  - eapply perm_trans; [apply Permutation_sym, Hs |].
    eapply perm_trans; [exact Hp | exact Hs'].
  - intros a b Ha Hb. apply Hties.
    + exact (Permutation_in _ (Permutation_sym Hs) Ha).
    + exact (Permutation_in _ (Permutation_sym Hs) Hb).
Qed.

Lemma ranking_ignores_row_order_witness :
  TopShareholders.topN 10
    [mkShareholder "Trust A" 5; mkShareholder "Fund B" 7]
  = TopShareholders.topN 10
    [mkShareholder "Fund B" 7; mkShareholder "Trust A" 5].
Proof.
  apply ranking_ignores_row_order.
  - apply perm_swap.
  - intros a b [<- | [<- | []]] [<- | [<- | []]] H;
      try reflexivity; discriminate H.
Defined.

(** ** Year selectors: from a year to its option and back *)

Lemma digits_after_positive (d : Decimal.uint) :
  forall p : positive,
    JS.digits 10 (NilEmpty.string_of_uint d) (Some (Zpos p))
    = Some (Zpos (Pos.of_uint_acc d p)).
Proof.
  induction d as [| d IH | d IH | d IH | d IH | d IH | d IH | d IH | d IH
                  | d IH | d IH]; intro p; [reflexivity | ..];
    cbn [NilEmpty.string_of_uint JS.digits Pos.of_uint_acc];
    match goal with
    | |- context [JS.digit_value 10 ?c] =>
        let v := eval vm_compute in (JS.digit_value 10 c) in
        change (JS.digit_value 10 c) with v
    end;
    cbv iota; rewrite <- IH; do 2 f_equal; lia.
Qed.

Lemma digits_after_zero (d : Decimal.uint) :
  JS.digits 10 (NilEmpty.string_of_uint d) (Some 0%Z)
  = Some (Z.of_N (Pos.of_uint d)).
Proof.
  induction d as [| d IH | d | d | d | d | d | d | d | d | d];
    [reflexivity | exact IH | ..];
    exact (digits_after_positive d _).
Qed.

Lemma digits_of_uint (d : Decimal.uint) :
  d <> Decimal.Nil ->
  JS.digits 10 (NilEmpty.string_of_uint d) None
  = Some (Z.of_N (Pos.of_uint d)).
Proof.
  destruct d; intro Hd; [contradiction | exact (digits_after_zero d) | ..];
    exact (digits_after_positive d _).
Qed.

Lemma parseInt_uint (d : Decimal.uint) :
  d <> Decimal.Nil ->
  JS.parseInt (NilEmpty.string_of_uint d) = Some (Z.of_N (Pos.of_uint d)) /\
  JS.parseInt (String "-" (NilEmpty.string_of_uint d))
  = Some (- Z.of_N (Pos.of_uint d))%Z.
Proof.
  intro Hd.
  assert (Hshape :
    JS.parseInt (NilEmpty.string_of_uint d)
    = option_map (fun m => m) (JS.digits 10 (NilEmpty.string_of_uint d) None)
    /\ JS.parseInt (String "-" (NilEmpty.string_of_uint d))
    = option_map (fun m => (- m)%Z)
                 (JS.digits 10 (NilEmpty.string_of_uint d) None)).
  { destruct d as [| l | l | l | l | l | l | l | l | l | l];
      [contradiction | destruct l; split; reflexivity | ..];
      split; reflexivity. }
  destruct Hshape as [Hpos Hneg].
  rewrite Hpos, Hneg, (digits_of_uint d Hd). split; reflexivity.
Qed.

Lemma parseInt_int_to_string (z : Z) (value : string) :
  JS.int_to_string z = Some value -> JS.parseInt value = Some z.
Proof.
  unfold JS.int_to_string.
  destruct (Z.abs z <? 2 ^ 53)%Z; [| discriminate].
  intro H. injection H as <-.
  destruct z as [| p | p]; [reflexivity | |];
    simpl Z.to_int;
    pose proof (DecimalPos.Unsigned.to_uint_nonnil p) as Hnil;
    destruct (parseInt_uint _ Hnil) as [Hpos Hneg];
    rewrite DecimalPos.Unsigned.of_to in Hpos, Hneg.
  - unfold NilZero.string_of_int, NilZero.string_of_uint.
    destruct (Pos.to_uint p); [contradiction | ..]; exact Hpos.
  - unfold NilZero.string_of_int, NilZero.string_of_uint.
    destruct (Pos.to_uint p); [contradiction | ..]; exact Hneg.
Qed.

(** X4.  A year below 2^53 in magnitude, which JavaScript writes with
    all its digits, goes through the selectors unchanged: the year
    parsed from the value of the option rendered for it is that year, in
    the selector of [TopShareholders] and, option by option, in the
    multiple selector of [Filters]. *)
Theorem selected_option_is_its_year :
  forall (year : Z) (value : string) (chosen : list Z) (values : list string),
    TopShareholders.option_value year = Some value ->
    map JS.int_to_string chosen = map Some values ->
    TopShareholders.handleYearChange value = Some year /\
    Filters.selectedYears values = map Some chosen.
Proof.
  intros year value chosen values Hvalue Hvalues. split.
  - now apply parseInt_int_to_string.
  - unfold Filters.selectedYears. revert values Hvalues.
    induction chosen as [| y chosen IH]; intros [| v values] Hvalues;
      try discriminate; [reflexivity |].
    simpl in Hvalues |- *. injection Hvalues as Hv Hrest.
    now rewrite (parseInt_int_to_string y v Hv), (IH values Hrest).
Qed.

Lemma selected_option_is_its_year_witness :
  TopShareholders.handleYearChange "2023" = Some 2023%Z /\
  Filters.selectedYears ["2019"; "2024"] = map Some [2019; 2024]%Z.
Proof.
  apply (selected_option_is_its_year 2023 "2023" [2019; 2024]%Z
           ["2019"; "2024"]); reflexivity.
Defined.

(** ** TopShareholders: the row of the selected year *)

Lemma indexOf_from_first (ys : list Z) :
  forall (y : Z) (i : nat) (k : Z),
    first_at ys y i -> JS.indexOf_from ys y k = (k + Z.of_nat i)%Z.
Proof.
  induction ys as [| x ys IH]; intros y i k [Hat Hfirst].
  - now destruct i.
  - destruct i as [| i]; simpl in *.
    + injection Hat as ->. rewrite Z.eqb_refl. lia.
    + destruct (x =? y)%Z eqn:E.
      * apply Z.eqb_eq in E. subst x.
        now elim (Hfirst 0%nat (Nat.lt_0_succ i)).
      * rewrite (IH y i (k + 1)%Z); [lia |].
        split; [exact Hat |].
        intros j Hj. apply (Hfirst (S j)). lia.
Qed.

Lemma indexOf_from_absent (ys : list Z) :
  forall (y : Z) (k : Z), ~ In y ys -> JS.indexOf_from ys y k = (-1)%Z.
Proof.
  induction ys as [| x ys IH]; intros y k Hnot; simpl; [reflexivity |].
  destruct (x =? y)%Z eqn:E.
  - apply Z.eqb_eq in E. elim Hnot. now left.
  - apply IH. intro Hin. apply Hnot. now right.
Qed.

Lemma first_at_exists (ys : list Z) (y : Z) :
  In y ys -> exists i : nat, first_at ys y i.
Proof.
  induction ys as [| x ys IH]; intro Hin; [destruct Hin |].
  destruct (Z.eq_dec x y) as [-> | Hne].
  - exists 0%nat. split; [reflexivity | intros j Hj; lia].
  - destruct Hin as [Heq | Hin]; [contradiction |].
    destruct (IH Hin) as (i & Hat & Hfirst).
    exists (S i). split; [exact Hat |].
    intros [| j] Hj; simpl.
    + intro H. injection H as H. contradiction.
    + apply Hfirst. lia.
Qed.

(** X5.  The index looked up for the selected year is the position of
    its first occurrence in [data.years], and -1 when the year does not
    occur (or when no year is selected). *)
Theorem yearIndex_is_first_occurrence :
  forall (ys : list Z) (y : Z),
    (In y ys ->
       exists i : nat,
         first_at ys y i /\
         TopShareholders.yearIndex ys (Some y) = Z.of_nat i) /\
    (~ In y ys -> TopShareholders.yearIndex ys (Some y) = (-1)%Z) /\
    TopShareholders.yearIndex ys None = (-1)%Z.
Proof.
  intros ys y. split; [| split].
  - intro Hin. destruct (first_at_exists ys y Hin) as [i Hi].
    exists i. split; [exact Hi |].
    unfold TopShareholders.yearIndex, JS.indexOf.
    now rewrite (indexOf_from_first ys y i 0%Z Hi).
  - intro Hnot. apply indexOf_from_absent, Hnot.
  - reflexivity.
Qed.

(** X6.  Selecting a year of the payload whose row (at the position of
    the first occurrence of the year) holds entries shows the bar chart
    of the ten largest entries of that row, names and percentages
    aligned. *)
Theorem selected_year_shows_its_row :
  forall (data : Data) (ys : list Z) (y : Z) (i : nat)
         (rows : list (option (list Shareholder))) (row : list Shareholder),
    years data = Some ys ->
    first_at ys y i ->
    shareholders data = Some rows ->
    nth_error rows i = Some (Some row) ->
    row <> [] ->
    TopShareholders.render data (Some y)
    = TopShareholders.Ok
        (TopShareholders.BarChart
           (map name (TopShareholders.top10Shareholders row))
           (map ownership_percentage (TopShareholders.top10Shareholders row))).
Proof.
  intros data ys y i rows row Hys Hat Hrows Hrow Hne.
  unfold TopShareholders.render, TopShareholders.yearData. rewrite Hys, Hrows.
  unfold TopShareholders.yearIndex, JS.indexOf.
  rewrite (indexOf_from_first ys y i 0%Z Hat). simpl Z.add.
  unfold JS.getZ, JS.get.
  replace (Z.of_nat i <? 0)%Z with false by (symmetry; apply Z.ltb_ge; lia).
  rewrite Nat2Z.id, Hrow.
  destruct row as [| s row]; [contradiction | reflexivity].
Qed.

Lemma selected_year_shows_its_row_witness :
  TopShareholders.render
    (mkData (Some [2022; 2023]%Z) [] None [] [] None None [] None None None
            (Some [None; Some [mkShareholder "Trust A" 5;
                               mkShareholder "Fund B" 7]]))
    (Some 2023%Z)
  = TopShareholders.Ok (TopShareholders.BarChart ["Fund B"; "Trust A"] [7; 5]).
Proof.
  apply (selected_year_shows_its_row _ [2022; 2023]%Z 2023%Z 1%nat
           [None; Some [mkShareholder "Trust A" 5; mkShareholder "Fund B" 7]]
           [mkShareholder "Trust A" 5; mkShareholder "Fund B" 7]).
  - reflexivity.
  - split; [reflexivity |].
    intros [| j] Hj; [discriminate | lia].
  - reflexivity.
  - reflexivity.
  - discriminate.
Defined.

(** X7.  On its first render the component selects the last year of the
    payload and, when no year occurs twice, reads the row at the last
    position. *)
Theorem mount_selects_last_year :
  forall (data : Data) (ys : list Z),
    years data = Some ys ->
    ys <> [] ->
    NoDup ys ->
    exists y : Z,
      nth_error ys (List.length ys - 1) = Some y /\
      TopShareholders.mount data = TopShareholders.render data (Some y) /\
      TopShareholders.yearIndex ys (Some y)
        = Z.of_nat (List.length ys - 1).
Proof.
  intros data ys Hys Hne Hnodup.
  destruct (nth_error ys (List.length ys - 1)) as [y |] eqn:Hlast.
  - exists y. split; [reflexivity |]. split.
    + unfold TopShareholders.mount, TopShareholders.initialYear.
      rewrite Hys. destruct ys; [contradiction | now rewrite Hlast].
    + unfold TopShareholders.yearIndex, JS.indexOf.
      rewrite (indexOf_from_first ys y (List.length ys - 1) 0%Z); [lia |].
      split; [exact Hlast |].
      intros j Hj Hsame. rewrite NoDup_nth_error in Hnodup.
      assert (j = List.length ys - 1)%nat; [| lia].
      apply Hnodup; [lia | congruence].
  - apply nth_error_None in Hlast. destruct ys; [contradiction |].
    simpl in Hlast. lia.
Qed.

Lemma mount_selects_last_year_witness :
  exists y : Z,
    nth_error [2022; 2023]%Z 1 = Some y /\
    TopShareholders.mount (revenue_only [2022; 2023]%Z [100; 110])
    = TopShareholders.render (revenue_only [2022; 2023]%Z [100; 110]) (Some y)
    /\ TopShareholders.yearIndex [2022; 2023]%Z (Some y) = 1%Z.
Proof.
  apply (mount_selects_last_year (revenue_only [2022; 2023]%Z [100; 110])
           [2022; 2023]%Z eq_refl).
  - discriminate.
  - repeat constructor; simpl; intuition discriminate.
Defined.

(** ** NetAssetShare: a previous value of zero *)

(** X8.  The growth of net asset per share is computed without a guard on
    the previous value: after a year whose value is zero the figure is
    not a finite number.  The tooltip prints NaN when the current value
    is zero as well, and otherwise an infinite growth, of one sign or the
    other. *)
Theorem growth_after_zero_is_not_finite :
  forall (data : Data) (ctx : Context) (vs : list Q) (i : nat) (p c : Q),
    datasetIndex ctx = 0%nat ->
    dataIndex ctx = S i ->
    net_asset_per_share data = Some vs ->
    nth_error vs i = Some p ->
    nth_error vs (S i) = Some c ->
    p == 0 ->
    (c == 0 ->
       NetAssetShare.percentChange vs (S i) = JS.NaN /\
       option_map (fun lines => nth 1 lines EmptyString)
                  (NetAssetShare.afterLabel data ctx)
       = Some "YoY Growth: NaN%") /\
    (~ c == 0 ->
       exists negative : bool,
         NetAssetShare.percentChange vs (S i) = JS.Inf negative /\
         option_map (fun lines => nth 1 lines EmptyString)
                    (NetAssetShare.afterLabel data ctx)
         = Some ("YoY Growth: "
                   ++ (if negative then "-Infinity" else "Infinity")
                   ++ "%")).
Proof.
  intros data ctx vs i p c Hset Hidx Hvs Hp Hc Hzero.
  assert (Hsame : c - p == c) by (rewrite Hzero; ring).
  assert (Hpc : NetAssetShare.percentChange vs (S i)
                = (if JS.Qis_zero c then JS.NaN else JS.Inf (JS.Qis_neg c))).
  { unfold NetAssetShare.percentChange, NetAssetShare.change.
    replace (S i - 1)%nat with i by lia. rewrite Hp, Hc. simpl.
    rewrite (Qis_zero_true _ Hzero).
    unfold JS.Qis_zero, JS.Qis_neg.
    rewrite (Qeqb_comp _ _ Hsame _ _ (Qeq_refl 0)).
    rewrite (Qleb_comp _ _ (Qeq_refl 0) _ _ Hsame).
    destruct (Qeq_bool c 0); [reflexivity |]. simpl.
    now rewrite xorb_false_r. }
  assert (Hline : option_map (fun lines => nth 1 lines EmptyString)
                             (NetAssetShare.afterLabel data ctx)
                  = Some ("YoY Growth: "
                            ++ JS.toFixed 1 (NetAssetShare.percentChange vs (S i))
                            ++ "%")).
  { unfold NetAssetShare.afterLabel. rewrite Hset, Hidx, Hvs. reflexivity. }
  rewrite Hline, Hpc. split.
  - intro Hc0. rewrite (Qis_zero_true _ Hc0). now split.
  - intro Hc0. rewrite (Qis_zero_false _ Hc0).
    exists (JS.Qis_neg c). split; [reflexivity |].
    now destruct (JS.Qis_neg c).
Qed.

Lemma growth_after_zero_is_not_finite_witness :
  option_map (fun lines => nth 1 lines EmptyString)
    (NetAssetShare.afterLabel
       (mkData (Some [2022; 2023]%Z) [] None [] [] None None [] None None
               (Some [0; 0]) None)
       (mkContext "Net Asset Per Share (LKR)" 0 1 (Some 0)))
  = Some "YoY Growth: NaN%".
Proof.
  exact (proj2 (proj1 (growth_after_zero_is_not_finite
                  (mkData (Some [2022; 2023]%Z) [] None [] [] None None []
                          None None (Some [0; 0]) None)
                  (mkContext "Net Asset Per Share (LKR)" 0 1 (Some 0))
                  [0; 0] 0 0 0 eq_refl eq_refl eq_refl eq_refl eq_refl
                  (Qeq_refl 0)) (Qeq_refl 0))).
Defined.

(** ** UploadForm: what a submit uploads *)

Lemma upload_run_app (evs1 evs2 : list UploadForm.event) :
  forall (st : UploadForm.State) (calls : list (list UploadForm.File)),
    UploadForm.run st calls (evs1 ++ evs2)%list
    = UploadForm.run (fst (UploadForm.run st calls evs1))
                     (snd (UploadForm.run st calls evs1)) evs2.
Proof.
  induction evs1 as [| e evs1 IH]; intros st calls; [reflexivity |].
  destruct e as [selected |]; simpl.
  - apply IH.
  - destruct (UploadForm.handleSubmit st) as [st' [fs |]]; apply IH.
Qed.

Lemma upload_run_files (evs : list UploadForm.event) :
  forall (st : UploadForm.State) (calls : list (list UploadForm.File)),
    UploadForm.files (fst (UploadForm.run st calls evs))
    = last_pdf_selection evs (UploadForm.files st).
Proof.
  induction evs as [| e evs IH]; intros st calls; [reflexivity |].
  destruct e as [selected |]; simpl.
  - rewrite IH, handleFileChange_cases.
    now destruct (forallb UploadForm.is_pdf selected).
  - unfold UploadForm.handleSubmit.
    destruct (UploadForm.files st) eqn:E; rewrite IH; simpl; now rewrite ?E.
Qed.

(** X9.  After any sequence of selections and submits the form holds the
    files of the last selection that consisted of PDF files only (none
    if there was no such selection): rejected selections and submits
    leave the held files alone, and so does an upload. *)
Theorem form_holds_last_pdf_selection :
  forall evs : list UploadForm.event,
    UploadForm.files (fst (UploadForm.run UploadForm.initial [] evs))
    = last_pdf_selection evs [].
Proof.
  intro evs. apply upload_run_files.
Qed.

(** X10.  A submit uploads exactly the files held at that moment, the
    last all-PDF selection, once more even if they were uploaded before;
    it uploads nothing when that selection is empty; the uploads made
    before it stay as they were. *)
Theorem submit_uploads_last_pdf_selection :
  forall evs : list UploadForm.event,
    snd (UploadForm.run UploadForm.initial [] (evs ++ [UploadForm.Submit])%list)
    = (snd (UploadForm.run UploadForm.initial [] evs)
       ++ match last_pdf_selection evs [] with
          | [] => []
          | fs => [fs]
          end)%list.
Proof.
  intro evs. rewrite upload_run_app. simpl.
  pose proof (upload_run_files evs UploadForm.initial []) as Hheld.
  change (UploadForm.files UploadForm.initial) with (@nil UploadForm.File)
    in Hheld.
  rewrite <- Hheld. unfold UploadForm.handleSubmit.
  destruct (UploadForm.files (fst (UploadForm.run UploadForm.initial [] evs)));
    simpl; [now rewrite app_nil_r | reflexivity].
Qed.

(** ** App: loading flag, error banner, filters and the upload body *)

Lemma step_loading_in_flight (w w' : App.World) (e : App.event) :
  App.step w e = Some w' ->
  App.isLoading (App.app w') = true -> App.in_flight w' <> [].
Proof.
  intros Hstep Hload.
  destruct e as [fs | nf | k payload | k]; simpl in Hstep.
  - injection Hstep as <-. simpl. intro H. now apply app_eq_nil in H as [_ H].
  - injection Hstep as <-. simpl. intro H. now apply app_eq_nil in H as [_ H].
  - destruct (App.lookup k (App.in_flight w)); [| discriminate].
    injection Hstep as <-. discriminate Hload.
  - destruct (App.lookup k (App.in_flight w)); [| discriminate].
    injection Hstep as <-. discriminate Hload.
Qed.

Lemma run_loading_in_flight (evs : list App.event) :
  forall w w' : App.World,
    (App.isLoading (App.app w) = true -> App.in_flight w <> []) ->
    App.run w evs = Some w' ->
    App.isLoading (App.app w') = true -> App.in_flight w' <> [].
Proof.
  induction evs as [| e evs IH]; intros w w' Hinv Hrun; simpl in Hrun.
  - now injection Hrun as <-.
  - destruct (App.step w e) as [w1 |] eqn:Hstep; [| discriminate].
    apply (IH w1 w'); [| exact Hrun].
    now apply (step_loading_in_flight w w1 e).
Qed.

(** X11.  Whenever the page shows the loading view, a request is in
    flight: the loading flag is raised only when a request is issued and
    every completion lowers it. *)
Theorem loading_means_request_in_flight :
  forall (evs : list App.event) (w : App.World),
    App.run App.start evs = Some w ->
    snd (App.render (App.app w)) = App.LoadingView ->
    App.in_flight w <> [].
Proof.
  intros evs w Hrun Hview.
  apply (run_loading_in_flight evs App.start w); [discriminate | exact Hrun |].
  unfold App.render in Hview. simpl in Hview.
  destruct (App.isLoading (App.app w)); [reflexivity |].
  now destruct (App.data (App.app w)).
Qed.

Lemma loading_means_request_in_flight_witness :
  exists w : App.World,
    App.run App.start
      [App.FilterChange (Filters.mkSelection [2023]%Z "All" "LKR")] = Some w /\
    App.in_flight w <> [].
Proof.
  eexists. split; [reflexivity |].
  apply (loading_means_request_in_flight
           [App.FilterChange (Filters.mkSelection [2023]%Z "All" "LKR")]);
    reflexivity.
Defined.

(** The converse fails: the first completion lowers the flag while the
    other request is still in flight. *)
Example request_in_flight_without_loading :
  exists w : App.World,
    App.run App.start
      [ App.FilterChange (Filters.mkSelection [2019]%Z "All" "LKR");
        App.FilterChange (Filters.mkSelection [2023]%Z "All" "LKR");
        App.Resolve 1 (revenue_only [2023]%Z [110]) ] = Some w /\
    App.in_flight w = [(0%nat, App.FilterRequest)] /\
    App.render (App.app w)
      = (None, App.Dashboard (revenue_only [2023]%Z [110])).
Proof. eexists. repeat split. Qed.

Lemma run_error_stays (evs : list App.event) :
  forall w w' : App.World,
    App.error (App.app w) <> None ->
    forallb (fun e => negb (is_upload e)) evs = true ->
    App.run w evs = Some w' ->
    App.error (App.app w') <> None.
Proof.
  induction evs as [| e evs IH]; intros w w' Herr Hno Hrun; simpl in *.
  - now injection Hrun as <-.
  - apply andb_true_iff in Hno as [He Hno].
    destruct (App.step w e) as [w1 |] eqn:Hstep; [| discriminate].
    apply (IH w1 w'); [| exact Hno | exact Hrun].
    destruct e as [fs | nf | k payload | k]; simpl in Hstep, He.
    + discriminate He.
    + now injection Hstep as <-.
    + destruct (App.lookup k (App.in_flight w)); [| discriminate].
      now injection Hstep as <-.
    + destruct (App.lookup k (App.in_flight w)); [| discriminate].
      injection Hstep as <-. discriminate.
Qed.

(** X12.  Once a request has failed the error banner stays on the page
    until the next upload is started: filter changes and responses,
    successful ones included, never clear it. *)
Theorem error_banner_stays_until_upload :
  forall (w w1 w' : App.World) (k : nat) (evs : list App.event),
    App.step w (App.Reject k) = Some w1 ->
    forallb (fun e => negb (is_upload e)) evs = true ->
    App.run w1 evs = Some w' ->
    fst (App.render (App.app w')) <> None.
Proof.
  intros w w1 w' k evs Hrej Hno Hrun.
  apply (run_error_stays evs w1 w'); [| exact Hno | exact Hrun].
  simpl in Hrej.
  destruct (App.lookup k (App.in_flight w)); [| discriminate].
  injection Hrej as <-. discriminate.
Qed.

Lemma run_filters (evs : list App.event) :
  forall w w' : App.World,
    App.run w evs = Some w' ->
    App.filters (App.app w')
    = last_filters evs (App.filters (App.app w)).
Proof.
  induction evs as [| e evs IH]; intros w w' Hrun; simpl in Hrun.
  - now injection Hrun as <-.
  - destruct (App.step w e) as [w1 |] eqn:Hstep; [| discriminate].
    rewrite (IH _ _ Hrun).
    destruct e as [fs | nf | k payload | k]; simpl in Hstep |- *.
    + now injection Hstep as <-.
    + now injection Hstep as <-.
    + destruct (App.lookup k (App.in_flight w)); [| discriminate].
      now injection Hstep as <-.
    + destruct (App.lookup k (App.in_flight w)); [| discriminate].
      now injection Hstep as <-.
Qed.

(** X13.  The filters held by the orchestrator are those of the last
    filter change, whatever became of its request: a failed or overtaken
    request does not bring the earlier filters back. *)
Theorem filters_follow_last_change :
  forall (evs : list App.event) (w : App.World),
    App.run App.start evs = Some w ->
    App.filters (App.app w)
    = last_filters evs (Filters.mkSelection [] "All" "LKR").
Proof.
  intros evs w Hrun. exact (run_filters evs App.start w Hrun).
Qed.

Lemma append_files_from (files : list UploadForm.File) (fuel : nat) :
  forall (i : nat) (formData : list (string * option UploadForm.File)),
    (List.length files <= i + fuel)%nat ->
    App.append_files files fuel i formData
    = (formData ++ map (fun f => ("files", Some f)) (skipn i files))%list.
Proof.
  induction fuel as [| fuel IH]; intros i formData Hfuel; simpl.
  - rewrite skipn_all2 by lia. now rewrite app_nil_r.
  - destruct (i <? List.length files)%nat eqn:E.
    + apply Nat.ltb_lt in E. rewrite IH by lia.
      destruct (nth_error files i) as [f |] eqn:Hf;
        [| apply nth_error_None in Hf; lia].
      rewrite <- app_assoc. f_equal. simpl.
      assert (Hskip : skipn i files = f :: skipn (S i) files).
      { clear -Hf. revert i Hf.
        induction files as [| x files IHf]; intros [| i] Hf;
          try discriminate; simpl in *.
        - now injection Hf as ->.
        - now apply IHf. }
      now rewrite Hskip.
    + apply Nat.ltb_ge in E. rewrite skipn_all2 by lia. now rewrite app_nil_r.
Qed.

(** X14.  The body posted by an upload has one part per file, in the
    order of the list, each under the key [files]; the loop that builds
    it needs as many iterations as there are files, and more change
    nothing. *)
Theorem upload_body_lists_every_file :
  forall (files : list UploadForm.File) (extra : nat),
    App.formData files = map (fun f => ("files", Some f)) files /\
    App.append_files files (List.length files + extra) 0 []
    = App.formData files.
Proof.
  intros files extra. unfold App.formData.
  rewrite !append_files_from by lia. now split.
Qed.

Lemma error_banner_stays_until_upload_witness :
  let w := App.mkWorld (App.mkState None true None
                          (Filters.mkSelection [2019]%Z "All" "LKR"))
                       2 [(0%nat, App.FilterRequest);
                          (1%nat, App.FilterRequest)] in
  exists w' : App.World,
    App.run w [App.Reject 0; App.Resolve 1 (revenue_only [2019]%Z [100])]
      = Some w' /\
    App.render (App.app w')
      = (Some "Failed to filter data. Please try again.",
         App.Dashboard (revenue_only [2019]%Z [100])) /\
    fst (App.render (App.app w')) <> None.
Proof.
  intro w. eexists. split; [reflexivity |]. split; [reflexivity |].
  eapply (error_banner_stays_until_upload w _ _ 0%nat
            [App.Resolve 1 (revenue_only [2019]%Z [100])]); reflexivity.
Defined.

Lemma filters_follow_last_change_witness :
  exists w : App.World,
    App.run App.start
      [ App.FilterChange (Filters.mkSelection [2019]%Z "All" "LKR");
        App.FilterChange (Filters.mkSelection [2023]%Z "Leisure" "USD");
        App.Reject 1;
        App.Resolve 0 (revenue_only [2019]%Z [100]) ] = Some w /\
    App.filters (App.app w) = Filters.mkSelection [2023]%Z "Leisure" "USD" /\
    App.data (App.app w) = Some (revenue_only [2019]%Z [100]).
Proof.
  eexists. split; [reflexivity |]. split; [| reflexivity].
  apply (filters_follow_last_change
           [ App.FilterChange (Filters.mkSelection [2019]%Z "All" "LKR");
             App.FilterChange (Filters.mkSelection [2023]%Z "Leisure" "USD");
             App.Reject 1;
             App.Resolve 0 (revenue_only [2019]%Z [100]) ]).
  reflexivity.
Defined.

(** ** The filter form and the filters of the orchestrator *)

Lemma panel_step_agrees (b : bool) (p : FilterPanel.Panel)
  (e : FilterPanel.event) :
  panel_agrees b p -> panel_agrees (b || chooses_years e) (FilterPanel.step p e).
Proof.
  unfold panel_agrees. intros (Hind & Hcur & Hyears).
  destruct e as [selected | value | value |]; simpl;
    rewrite ?orb_true_r, ?orb_false_r; repeat split; auto.
Qed.

Lemma panel_run_agrees (evs : list FilterPanel.event) :
  forall (b : bool) (p : FilterPanel.Panel),
    panel_agrees b p ->
    panel_agrees (b || existsb chooses_years evs) (FilterPanel.run p evs).
Proof.
  induction evs as [| e evs IH]; intros b p Hp; simpl.
  - now rewrite orb_false_r.
  - rewrite orb_assoc. apply IH. now apply panel_step_agrees.
Qed.

(** X15.  The form and the orchestrator always agree on industry and
    currency.  They agree on the years once the user has changed the year
    selection or clicked the apply button; until then the form shows all
    six years selected while the filters of the orchestrator, and so the
    request sent by a change of industry or currency, name no year. *)
Theorem form_and_filters_agree :
  forall evs : list FilterPanel.event,
    panel_agrees (existsb chooses_years evs)
                 (FilterPanel.run (FilterPanel.mount App.initial) evs).
Proof.
  intro evs.
  apply (panel_run_agrees evs false (FilterPanel.mount App.initial)).
  repeat split.
Qed.

(** A change of currency right after the page opens: the form shows six
    years, the request asks for none. *)
Example currency_change_sends_no_year :
  let p := FilterPanel.run (FilterPanel.mount App.initial)
             [FilterPanel.CurrencyChange "USD"] in
  FilterPanel.local p
    = Filters.mkSelection [2019; 2020; 2021; 2022; 2023; 2024]%Z "All" "USD" /\
  App.filters (FilterPanel.orchestrator p) = Filters.mkSelection [] "All" "USD".
Proof. split; reflexivity. Qed.

(** ** TopShareholders: the bars of the chart *)

Lemma top10_length (yearData : list Shareholder) :
  List.length (TopShareholders.top10Shareholders yearData)
  = Nat.min 10 (List.length yearData).
Proof.
  unfold TopShareholders.top10Shareholders, JS.slice0,
    TopShareholders.sortedShareholders.
  rewrite length_firstn. f_equal. symmetry.
  apply Permutation_length, (sort_perm ownership_percentage).
Qed.

(** X16.  Whenever the component draws the chart, it has at least one
    bar and at most ten, with as many names as percentages. *)
Theorem chart_has_one_to_ten_bars :
  forall (data : Data) (selectedYear : option Z)
         (labels : list string) (values : list Q),
    TopShareholders.render data selectedYear
      = TopShareholders.Ok (TopShareholders.BarChart labels values) ->
    List.length labels = List.length values /\
    (1 <= List.length labels <= 10)%nat.
Proof.
  intros data selectedYear labels values Hrender.
  unfold TopShareholders.render in Hrender.
  destruct (years data) as [ys |]; [| discriminate].
  set (yd := TopShareholders.yearData data
               (TopShareholders.yearIndex ys selectedYear)) in *.
  destruct (0 <? List.length yd)%nat eqn:Hsome; [| discriminate].
  apply Nat.ltb_lt in Hsome.
  injection Hrender as <- <-. rewrite !length_map. split; [reflexivity |].
  rewrite top10_length. lia.
Qed.

Lemma chart_has_one_to_ten_bars_witness :
  List.length ["Fund B"; "Trust A"] = List.length [7; 5] /\
  (1 <= List.length ["Fund B"; "Trust A"] <= 10)%nat.
Proof.
  apply (chart_has_one_to_ten_bars
           (mkData (Some [2023]%Z) [] None [] [] None None [] None None None
                   (Some [Some [mkShareholder "Trust A" 5;
                                mkShareholder "Fund B" 7]]))
           (Some 2023%Z)).
  reflexivity.
Defined.

(** ** NetAssetShare: an unchanged value *)

(** Printing depends on the value of a number only, not on the fraction
    that represents it. *)
Lemma toFixed_value (k : nat) (x y : Q) :
  x == y -> JS.toFixed k (JS.Fin x) = JS.toFixed k (JS.Fin y).
Proof.
  intro H. unfold JS.toFixed, JS.Qis_neg, JS.fixed_digits.
  rewrite (Qleb_comp _ _ (Qeq_refl 0) _ _ H).
  assert (Hpos : Qfloor (x * inject_Z (10 ^ Z.of_nat k) + (1 # 2))
                 = Qfloor (y * inject_Z (10 ^ Z.of_nat k) + (1 # 2)))
    by (apply Qfloor_comp; now rewrite H).
  assert (Hneg : Qfloor (- x * inject_Z (10 ^ Z.of_nat k) + (1 # 2))
                 = Qfloor (- y * inject_Z (10 ^ Z.of_nat k) + (1 # 2)))
    by (apply Qfloor_comp; now rewrite H).
  now rewrite Hpos, Hneg.
Qed.

(** X17.  For a year whose net asset per share equals that of the year
    before (not zero), the tooltip prints a change of 0.00 and a growth
    of 0.0 percent: the computed figure is shown also when it is zero. *)
Theorem unchanged_value_prints_zero_growth :
  forall (data : Data) (ctx : Context) (vs : list Q) (i : nat) (p c : Q),
    datasetIndex ctx = 0%nat ->
    dataIndex ctx = S i ->
    net_asset_per_share data = Some vs ->
    nth_error vs i = Some p ->
    nth_error vs (S i) = Some c ->
    ~ p == 0 ->
    c == p ->
    NetAssetShare.afterLabel data ctx
    = Some ["YoY Change: 0.00 LKR"; "YoY Growth: 0.0%"].
Proof.
  intros data ctx vs i p c Hset Hidx Hvs Hp Hc Hnz Hsame.
  assert (Hzero : c - p == 0) by (rewrite Hsame; ring).
  assert (Hgrowth : (c - p) / p * 100 == 0)
    by (rewrite Hzero; field; exact Hnz).
  unfold NetAssetShare.afterLabel. rewrite Hset, Hidx, Hvs. cbv zeta.
  unfold NetAssetShare.percentChange, NetAssetShare.change.
  replace (S i - 1)%nat with i by lia. rewrite Hp, Hc. simpl JS.of_slot.
  cbn [JS.sub JS.div JS.mul]. rewrite (Qis_zero_false _ Hnz).
  cbn [JS.mul JS.gt0]. unfold JS.Qis_pos.
  rewrite (Qleb_comp _ _ Hzero _ _ (Qeq_refl 0)).
  rewrite (toFixed_value 2 _ _ Hzero), (toFixed_value 1 _ _ Hgrowth).
  reflexivity.
Qed.

Lemma unchanged_value_prints_zero_growth_witness :
  NetAssetShare.afterLabel flat_years
    (mkContext "Net Asset Per Share (LKR)" 0 1 (Some 90))
  = Some ["YoY Change: 0.00 LKR"; "YoY Growth: 0.0%"].
Proof.
  apply (unchanged_value_prints_zero_growth flat_years _ [90; 90] 0 90 90);
    try reflexivity.
  intro H. discriminate H.
Defined.
